(** * Derivative evaluation of Gaussian basis functions (gbasis, eval_deriv.py)

    A shallow embedding of [EvalDeriv.construct_array_contraction] and
    [evaluate_deriv_basis].  Python objects are a small tagged union, numpy
    arrays are records of a dtype, a shape and row-major data, exceptions are
    an error result.  Double-precision arithmetic is kept abstract: every
    definition and theorem is parametric in the floating-point operations, so
    nothing relies on laws (associativity, exactness) that IEEE arithmetic
    does not have. *)

From Stdlib Require Import String.
From Stdlib Require Import List ZArith QArith Lia Bool Permutation Arith.
Import ListNotations.

Close Scope Q_scope.

(** ** Exceptions *)

Inductive exn : Type := TypeError | ValueError.

Inductive result (A : Type) : Type :=
| Return (a : A)
| Raise (e : exn).

Arguments Return {A} a.
Arguments Raise {A} e.

Definition bind {A B : Type} (r : result A) (k : A -> result B) : result B :=
  match r with
  | Return a => k a
  | Raise e => Raise e
  end.

Definition fmap {A B : Type} (f : A -> B) (r : result A) : result B :=
  bind r (fun a => Return (f a)).

Notation "x <- r ;; k" := (bind r (fun x => k))
  (at level 61, r at next level, right associativity).


(** ** Floating-point operations *)

Class FloatOps (F : Type) : Type := {
  fofZ : Z -> F;
  fadd : F -> F -> F;
  fsub : F -> F -> F;
  fmul : F -> F -> F;
  fopp : F -> F;
  fexp : F -> F;
  fltb : F -> F -> bool
}.

(** ** numpy dtypes *)

(** The real-number dtypes.  Arrays of the other dtypes (str, bytes,
    datetime64, structured, object), on which the comparison [a < 0]
    itself raises, are not arrays of this development: every array below
    has a dtype of this list. *)
Inductive np_dtype : Type :=
| Bool8
| Int8 | Int16 | Int32 | Int64
| UInt8 | UInt16 | UInt32 | UInt64
| Float16 | Float32 | Float64.

Definition np_dtype_eq_dec (a b : np_dtype) : {a = b} + {a <> b}.
Proof. decide equality. Defined.

Definition dtype_eqb (a b : np_dtype) : bool :=
  if np_dtype_eq_dec a b then true else false.

Definition is_integral (d : np_dtype) : bool :=
  match d with
  | Int8 | Int16 | Int32 | Int64 | UInt8 | UInt16 | UInt32 | UInt64 => true
  | _ => false
  end.

Definition is_unsigned (d : np_dtype) : bool :=
  match d with
  | UInt8 | UInt16 | UInt32 | UInt64 => true
  | _ => false
  end.

Definition is_floating (d : np_dtype) : bool :=
  match d with
  | Float16 | Float32 | Float64 => true
  | _ => false
  end.

(** A boolean, integer or floating-point dtype: on arrays of these the
    comparison [a < 0] is defined. *)
Definition real_dtype (d : np_dtype) : bool :=
  dtype_eqb d Bool8 || is_integral d || is_floating d.

(** The width of the C long behind Python's [int] when numpy turns it into a
    dtype: 64 bits on Linux and macOS, 32 bits on Windows with numpy 1. *)
Inductive platform : Type := Long32 | Long64.

Existing Class platform.

(** [np.dtype(int)] *)
Definition np_int (pl : platform) : np_dtype :=
  match pl with
  | Long32 => Int32
  | Long64 => Int64
  end.

(** ** Tabulation in row-major order *)

Definition tabulate {A : Type} (n : nat) (f : nat -> A) : list A :=
  map f (seq 0 n).

Definition tabulate2 {A : Type} (n m : nat) (f : nat -> nat -> A) : list A :=
  flat_map (fun i => tabulate m (f i)) (seq 0 n).

Definition tabulate3 {A : Type} (n m k : nat) (f : nat -> nat -> nat -> A)
  : list A :=
  flat_map (fun i => tabulate2 m k (f i)) (seq 0 n).

(** The list [l] read as [outer] rows of [N] entries: from every row the
    entries at the indices [idx] *)
Definition take_last {A : Type} (d : A) (idx : list nat) (N outer : nat)
  (l : list A) : list A :=
  flat_map (fun o => map (fun j => nth (o * N + j) l d) idx) (seq 0 outer).

Definition list_nat_eqb (a b : list nat) : bool :=
  if list_eq_dec Nat.eq_dec a b then true else false.

Section EvalDeriv.

Context {F : Type} {ops : FloatOps F} {pl : platform}.

(** ** Array elements and arrays *)

Inductive scalar : Type :=
| SBool (b : bool)
| SInt (z : Z)
| SFloat (x : F).

Record ndarray : Type := {
  dtype : np_dtype;
  shape : list nat;
  data : list scalar
}.

Definition ndim (a : ndarray) : nat := length (shape a).

(** [a.shape[k]], 0 where the axis does not exist *)
Definition dim (k : nat) (a : ndarray) : nat := nth k (shape a) 0.

Definition size (sh : list nat) : nat := fold_right Nat.mul 1 sh.

Definition scalar_has_dtype (d : np_dtype) (s : scalar) : Prop :=
  match s with
  | SBool _ => d = Bool8
  | SInt z => is_integral d = true /\ (is_unsigned d = true -> (0 <= z)%Z)
  | SFloat _ => is_floating d = true
  end.

(** A well-formed array holds as many elements as its shape says, each of
    the array's dtype. *)
Definition wf_ndarray (a : ndarray) : Prop :=
  length (data a) = size (shape a) /\ Forall (scalar_has_dtype (dtype a)) (data a).

Definition as_float (s : scalar) : F :=
  match s with
  | SBool b => fofZ (if b then 1 else 0)
  | SInt z => fofZ z
  | SFloat x => x
  end.

Definition as_int (s : scalar) : Z :=
  match s with
  | SBool b => if b then 1%Z else 0%Z
  | SInt z => z
  | SFloat _ => 0%Z
  end.

Definition get1 (a : ndarray) (i : nat) : scalar :=
  nth i (data a) (SInt 0).

Definition get2 (a : ndarray) (i j : nat) : scalar :=
  nth (i * dim 1 a + j) (data a) (SInt 0).

Definition get3 (a : ndarray) (i j k : nat) : scalar :=
  nth ((i * dim 1 a + j) * dim 2 a + k) (data a) (SInt 0).

(** [x < 0] on one element *)
Definition scalar_lt0 (s : scalar) : bool :=
  match s with
  | SBool _ => false
  | SInt z => (z <? 0)%Z
  | SFloat x => fltb x (fofZ 0)
  end.

(** [np.any(a < 0)], for an array of a real-number dtype *)
Definition any_lt0 (a : ndarray) : bool := existsb scalar_lt0 (data a).

(** ** Shells *)

(** Modelled from the spec: the class GeneralizedContractionShell of
    gbasis/contractions.py is missing; the record has the attributes the
    spec's data model lists and the source reads: center, exponents (P),
    coefficients (P x M), angular momentum, Cartesian components
    (L_cart x 3) and primitive normalization constants (P x L_cart). *)
Record GeneralizedContractionShell : Type := {
  coord : ndarray;
  exps : ndarray;
  coeffs : ndarray;
  angmom : nat;
  angmom_components_cart : ndarray;
  norm_prim_cart : ndarray
}.

Definition num_seg_cont (sh : GeneralizedContractionShell) : nat := dim 1 (coeffs sh).
Definition num_cart (sh : GeneralizedContractionShell) : nat :=
  dim 0 (angmom_components_cart sh).

(** A valid shell with [P] primitives, [M] segmented contractions and
    [L_cart] Cartesian components: every attribute is present with the
    shape the data model gives it. *)
Definition valid_shell (sh : GeneralizedContractionShell) (P M L_cart : nat)
  : Prop :=
  (wf_ndarray (coord sh) /\ shape (coord sh) = [3]) /\
  (wf_ndarray (exps sh) /\ shape (exps sh) = [P]) /\
  (wf_ndarray (coeffs sh) /\ shape (coeffs sh) = [P; M]) /\
  (wf_ndarray (angmom_components_cart sh) /\
   shape (angmom_components_cart sh) = [L_cart; 3] /\
   L_cart = (angmom sh + 1) * (angmom sh + 2) / 2) /\
  (wf_ndarray (norm_prim_cart sh) /\ shape (norm_prim_cart sh) = [P; L_cart]).

(** ** Python values *)

#[warning="-register-all"] Inductive pyobj : Type :=
| PyNone
| PyStr (s : string)
| PySeq (l : list pyobj)
| PyShell (sh : GeneralizedContractionShell)
| PyArray (a : ndarray).

(** ** The primitive derivative evaluator *)

Fixpoint fpow (x : F) (n : nat) : F :=
  match n with
  | O => fofZ 1
  | S n' => fmul x (fpow x n')
  end.

Definition fsum (l : list F) : F := fold_left fadd l (fofZ 0).

(** Modelled from the spec: part of the missing gbasis/_deriv.py,
    [x^n * exp(-alpha * x^2)], the 1-D Gaussian times a monomial in the
    displacement [x] from the center. *)
Definition gauss_monomial (n : nat) (alpha x : F) : F :=
  fmul (fpow x n) (fexp (fmul (fopp alpha) (fpow x 2))).

(** Modelled from the spec: the derivative of order [o] of
    [x^n * exp(-alpha * x^2)], part of the missing gbasis/_deriv.py.
    Differentiating once lowers the power by one, scaled by the power, or
    raises it by one, scaled by -2 alpha; a power that would fall below zero
    contributes zero. *)
Fixpoint gauss_deriv_1d (o n : nat) (alpha x : F) : F :=
  match o with
  | O => gauss_monomial n alpha x
  | S o' =>
      fadd
        match n with
        | O => fofZ 0
        | S n' => fmul (fofZ (Z.of_nat n)) (gauss_deriv_1d o' n' alpha x)
        end
        (fmul (fmul (fofZ (-2)) alpha) (gauss_deriv_1d o' (S n) alpha x))
  end.

(** Modelled from the spec: part of the missing gbasis/_deriv.py, the value
    of one normalized primitive: the product over the three axes of
    [f axis], times the normalization constant. *)
Definition primitive_value (norm_const : F) (f : nat -> F) : F :=
  fmul (fmul (fmul (f 0) (f 1)) (f 2)) norm_const.

(** Modelled from the spec: part of the missing gbasis/_deriv.py, the sum
    over the [P] primitives, weighted by the coefficients. *)
Definition contract (P : nat) (coeff prim : nat -> F) : F :=
  fsum (map (fun p => fmul (coeff p) (prim p)) (seq 0 P)).

(** Modelled from the spec: part of the missing gbasis/_deriv.py, the
    displacement of point [i] from the center along axis [a]. *)
Definition displacement (coords center : ndarray) (i a : nat) : F :=
  fsub (as_float (get2 coords i a)) (as_float (get1 center a)).

(** Modelled from the spec: part of the missing gbasis/_deriv.py, the
    derivative of order [orders] of segmented contraction [m], component
    [l], at the displacement [x] from the center. *)
Definition deriv_contraction
  (orders angmom_comps alphas prim_coeffs norm : ndarray)
  (x : nat -> F) (m l : nat) : F :=
  contract (dim 0 alphas)
    (fun p => as_float (get2 prim_coeffs p m))
    (fun p => primitive_value (as_float (get2 norm p l))
       (fun a => gauss_deriv_1d (Z.to_nat (as_int (get1 orders a)))
                   (Z.to_nat (as_int (get2 angmom_comps l a)))
                   (as_float (get1 alphas p))
                   (x a))).

(** Modelled from the spec: _eval_deriv_contractions of the missing
    gbasis/_deriv.py, the Primitive Derivative Evaluator of section 4.1:
    per primitive, component and axis the derivative of the 1-D Gaussian at
    the displacement from the center, the product over the axes, times the
    normalization constant, contracted over the primitives with the
    coefficients; the result has shape (M, L_cart, N). *)
Definition _eval_deriv_contractions
  (coords orders center angmom_comps alphas prim_coeffs norm : ndarray)
  : ndarray :=
  let N := dim 0 coords in
  let L := dim 0 angmom_comps in
  let M := dim 1 prim_coeffs in
  {| dtype := Float64;
     shape := [M; L; N];
     data := tabulate3 M L N (fun m l i =>
       SFloat (deriv_contraction orders angmom_comps alphas prim_coeffs norm
                 (displacement coords center i) m l)) |}.

(** ** The shell array constructor (eval_deriv.py, lines 56-125) *)

Definition construct_array_contraction (contractions coords orders : pyobj)
  : result ndarray :=
  sh <- match contractions with
        | PyShell sh => Return sh
        | _ => Raise TypeError
        end ;;
  c <- match coords with
       | PyArray c =>
           if (ndim c =? 2) && (nth 1 (shape c) 0 =? 3) then Return c
           else Raise TypeError
       | _ => Raise TypeError
       end ;;
  o <- match orders with
       | PyArray o =>
           if list_nat_eqb (shape o) [3] then Return o else Raise TypeError
       | _ => Raise TypeError
       end ;;
  if any_lt0 o then Raise ValueError
  else if negb (dtype_eqb (dtype o) (np_int pl)) then Raise ValueError
  else
    let alphas := exps sh in
    let prim_coeffs := coeffs sh in
    let angmom_comps := angmom_components_cart sh in
    let center := coord sh in
    let norm_prim_cart := norm_prim_cart sh in
    Return (_eval_deriv_contractions c o center angmom_comps alphas
              prim_coeffs norm_prim_cart).

(** The evaluator's array of a shell, as construct_array_contraction
    returns it on valid arguments *)
Definition shell_values (sh : GeneralizedContractionShell) (c o : ndarray)
  : ndarray :=
  _eval_deriv_contractions c o (coord sh) (angmom_components_cart sh)
    (exps sh) (coeffs sh) (norm_prim_cart sh).

(** ** The orchestration of the base class *)

(** The cartesian-to-spherical transform of a shell of angular momentum L,
    an external collaborator: a (2L+1, L_cart) matrix. *)
Class CartesianToSpherical : Type :=
  generate_transformation : nat -> ndarray.

Context {cart_to_sph : CartesianToSpherical}.

Inductive coord_kind : Type := Cartesian | Spherical.

(** The [coord_type] argument: a string or a list/tuple of strings. *)
Inductive coord_type_arg : Type :=
| CoordStr (s : string)
| CoordSeq (l : list string).

(** [coord_type == s] for a string literal [s] *)
Definition coord_type_eqb (c : coord_type_arg) (s : string) : bool :=
  match c with
  | CoordStr s' => String.eqb s' s
  | CoordSeq _ => false
  end.

Definition npoints (coords : pyobj) : nat :=
  match coords with
  | PyArray c => dim 0 c
  | _ => 0
  end.

(** Modelled from the spec: part of the missing gbasis/base_one.py, an
    (M, L, N) array flattened to (M * L, N): the blocks of the first axis
    one after the other. *)
Definition flatten_functions (a : ndarray) : ndarray :=
  {| dtype := dtype a;
     shape := [dim 0 a * dim 1 a; dim 2 a];
     data := data a |}.

(** Modelled from the spec: part of the missing gbasis/base_one.py, the
    transform [T] of shape (S, L) applied to the component axis of the
    (M, L, N) array [a]: an (M, S, N) array. *)
Definition to_spherical (T a : ndarray) : ndarray :=
  {| dtype := Float64;
     shape := [dim 0 a; dim 0 T; dim 2 a];
     data := tabulate3 (dim 0 a) (dim 0 T) (dim 2 a) (fun m s i =>
       SFloat (contract (dim 1 a) (fun l => as_float (get2 T s l))
                 (fun l => as_float (get3 a m l i)))) |}.

(** Modelled from the spec: part of the missing gbasis/base_one.py, [T] of
    shape (K, C) times [a] of shape (C, N): a (K, N) array. *)
Definition tensordot (T a : ndarray) : ndarray :=
  {| dtype := Float64;
     shape := [dim 0 T; dim 1 a];
     data := tabulate2 (dim 0 T) (dim 1 a) (fun k i =>
       SFloat (contract (dim 0 a) (fun j => as_float (get2 T k j))
                 (fun j => as_float (get2 a j i)))) |}.

(** Modelled from the spec: part of the missing gbasis/base_one.py, the
    arrays of the shells one after the other along the function axis, for
    [N] points. *)
Definition concatenate (N : nat) (ms : list ndarray) : ndarray :=
  {| dtype := Float64;
     shape := [list_sum (map (dim 0) ms); N];
     data := concat (map data ms) |}.

Fixpoint sequence {A : Type} (l : list (result A)) : result (list A) :=
  match l with
  | [] => Return []
  | r :: l' => a <- r ;; rest <- sequence l' ;; Return (a :: rest)
  end.

(** Modelled from the spec: part of the missing gbasis/base_one.py, what
    one shell contributes through one call of the shell array constructor:
    its Cartesian functions, or these transformed to spherical functions,
    as a 2-D array. *)
Definition shell_array (k : coord_kind) (sh : GeneralizedContractionShell)
  (coords orders : pyobj) : result ndarray :=
  a <- construct_array_contraction (PyShell sh) coords orders ;;
  Return (flatten_functions
            match k with
            | Cartesian => a
            | Spherical => to_spherical (generate_transformation (angmom sh)) a
            end).

(** Modelled from the spec: part of the missing gbasis/base_one.py, the
    loop over the shells, each with its coordinate kind, and the
    concatenation of what they contribute, in shell order. *)
Definition construct_array_kinds (basis : list GeneralizedContractionShell)
  (kinds : list coord_kind) (coords orders : pyobj) : result ndarray :=
  ms <- sequence (map (fun p => shell_array (snd p) (fst p) coords orders)
                    (combine basis kinds)) ;;
  Return (concatenate (npoints coords) ms).

(** Modelled from the spec: construct_array_cartesian of the missing
    gbasis/base_one.py: every shell contributes its Cartesian functions,
    through one call of the shell array constructor per shell, concatenated
    in shell order along the function axis. *)
Definition construct_array_cartesian (basis : list GeneralizedContractionShell)
  (coords orders : pyobj) : result ndarray :=
  construct_array_kinds basis (map (fun _ => Cartesian) basis) coords orders.

(** Modelled from the spec: construct_array_spherical of the missing
    gbasis/base_one.py: every shell contributes its spherical functions. *)
Definition construct_array_spherical (basis : list GeneralizedContractionShell)
  (coords orders : pyobj) : result ndarray :=
  construct_array_kinds basis (map (fun _ => Spherical) basis) coords orders.

Definition parse_kind (s : string) : option coord_kind :=
  if String.eqb s "cartesian" then Some Cartesian
  else if String.eqb s "spherical" then Some Spherical
  else None.

Fixpoint parse_kinds (l : list string) : option (list coord_kind) :=
  match l with
  | [] => Some []
  | s :: l' =>
      match parse_kind s, parse_kinds l' with
      | Some k, Some ks => Some (k :: ks)
      | _, _ => None
      end
  end.

(** Modelled from the spec: construct_array_mix of the missing
    gbasis/base_one.py: each shell contributes cartesian or spherical
    functions as its entry of the per-shell sequence says; a [coord_types]
    that is not such a sequence, with one entry per shell, is a violated
    precondition (a type/shape violation in the taxonomy of section 7). *)
Definition construct_array_mix (basis : list GeneralizedContractionShell)
  (coord_types : coord_type_arg) (coords orders : pyobj) : result ndarray :=
  match coord_types with
  | CoordStr _ => Raise TypeError
  | CoordSeq l =>
      match parse_kinds l with
      | None => Raise TypeError
      | Some kinds =>
          if length kinds =? length basis
          then construct_array_kinds basis kinds coords orders
          else Raise TypeError
      end
  end.

(** Modelled from the spec: part of the missing gbasis/base_one.py, the
    array of the contractions in the coordinate system [coord_type]. *)
Definition construct_array_coord_type (basis : list GeneralizedContractionShell)
  (coord_type : coord_type_arg) (coords orders : pyobj) : result ndarray :=
  if coord_type_eqb coord_type "cartesian"
  then construct_array_cartesian basis coords orders
  else if coord_type_eqb coord_type "spherical"
  then construct_array_spherical basis coords orders
  else construct_array_mix basis coord_type coords orders.

(** Modelled from the spec: construct_array_lincomb of the missing
    gbasis/base_one.py: the array of all shells in the coordinate system
    [coord_type], multiplied from the left by [transform] of shape
    (K_orbs, K_cont); a transform of another shape is a type/shape
    violation. *)
Definition construct_array_lincomb (basis : list GeneralizedContractionShell)
  (transform : ndarray) (coord_type : coord_type_arg) (coords orders : pyobj)
  : result ndarray :=
  a <- construct_array_coord_type basis coord_type coords orders ;;
  if (ndim transform =? 2) && (dim 1 transform =? dim 0 a)
  then Return (tensordot transform a)
  else Raise TypeError.

(** ** The basis assembly driver (eval_deriv.py, lines 128-176) *)

(** An argument left out of the call is [None] here and takes the default
    of the signature: [transform=None], [coord_type="spherical"]. *)
Definition evaluate_deriv_basis (basis : list GeneralizedContractionShell)
  (points orders : pyobj) (transform : option ndarray)
  (coord_type : option coord_type_arg) : result ndarray :=
  let coord_type :=
    match coord_type with
    | Some c => c
    | None => CoordStr "spherical"
    end in
  match transform with
  | Some t => construct_array_lincomb basis t coord_type points orders
  | None =>
      if coord_type_eqb coord_type "cartesian"
      then construct_array_cartesian basis points orders
      else if coord_type_eqb coord_type "spherical"
      then construct_array_spherical basis points orders
      else construct_array_mix basis coord_type points orders
  end.

(** ** Reordering points *)

(** [a[idx]]: the rows of the 2-D array [a] at the indices [idx] *)
Definition take_rows (idx : list nat) (a : ndarray) : ndarray :=
  {| dtype := dtype a;
     shape := length idx :: tl (shape a);
     data := flat_map (fun i => tabulate (dim 1 a) (get2 a i)) idx |}.

(** [a[..., idx]]: the entries of the last axis of [a] at the indices [idx] *)
Definition take_points (idx : list nat) (a : ndarray) : ndarray :=
  {| dtype := dtype a;
     shape := removelast (shape a) ++ [length idx];
     data := take_last (SInt 0) idx (last (shape a) 0)
               (size (removelast (shape a))) (data a) |}.

(** ** The plain contracted Gaussian *)


(** ** Valid arguments *)

(** The call passes the three type checks: [contractions] is a shell,
    [coords] a 2-D array with 3 columns, [orders] an array of shape (3,). *)
Definition type_checks (contractions coords orders : pyobj) : Prop :=
  (exists sh, contractions = PyShell sh) /\
  (exists c, coords = PyArray c /\ ndim c = 2 /\ dim 1 c = 3) /\
  (exists o, orders = PyArray o /\ shape o = [3]).


(** [N] points: a 2-D array with 3 columns *)
Definition valid_coords (c : ndarray) (N : nat) : Prop :=
  wf_ndarray c /\ shape c = [N; 3].

(** A triple of non-negative integers of numpy's default integer dtype *)
Definition valid_orders (o : ndarray) : Prop :=
  wf_ndarray o /\ shape o = [3] /\ dtype o = np_int pl /\
  Forall (fun s => (0 <= as_int s)%Z) (data o).

(** A 2-D array with one row per function and [N] columns, the points *)
Definition rows_of_points (N : nat) (m : ndarray) : Prop :=
  exists k, shape m = [k; N] /\ length (data m) = k * N.

(** The number of Cartesian functions of a shell *)
Definition cart_count (sh : GeneralizedContractionShell) : nat :=
  num_seg_cont sh * num_cart sh.

(** ** The raise statements with their messages (eval_deriv.py, lines 102-115) *)

Definition msg_contractions : string :=
  "`contractions` must be a GeneralizedContractionShell instance.".

Definition msg_coords : string :=
  "`coords` must be given as a two-dimensional numpy array with 3 columnms.".

Definition msg_orders : string :=
  "Orders of the derivatives must be a one-dimensional numpy array with 3 elements.".

Definition msg_negative : string :=
  "Negative order of derivative is not supported.".

Definition msg_dtype : string :=
  "Orders of the derivatives must be given as integers.".

(** [isinstance(x, GeneralizedContractionShell)] *)
Definition isinstance_shell (x : pyobj) : bool :=
  match x with
  | PyShell _ => true
  | _ => false
  end.

(** [isinstance(x, np.ndarray) and x.ndim == 2 and x.shape[1] == 3] *)
Definition coords_check (x : pyobj) : bool :=
  match x with
  | PyArray c => (ndim c =? 2) && (nth 1 (shape c) 0 =? 3)
  | _ => false
  end.

(** [isinstance(x, np.ndarray) and x.shape == (3,)]; the array when so *)
Definition orders_check (x : pyobj) : option ndarray :=
  match x with
  | PyArray o => if list_nat_eqb (shape o) [3] then Some o else None
  | _ => None
  end.

(** The raise statement the call reaches, [None] when it reaches none: the
    five checks in the order of the source, each with its exception and
    its message. *)
Definition validation_error (contractions coords orders : pyobj)
  : option (exn * string) :=
  if negb (isinstance_shell contractions)
  then Some (TypeError, msg_contractions)
  else if negb (coords_check coords)
  then Some (TypeError, msg_coords)
  else match orders_check orders with
       | None => Some (TypeError, msg_orders)
       | Some o =>
           if any_lt0 o then Some (ValueError, msg_negative)
           else if negb (dtype_eqb (dtype o) (np_int pl))
           then Some (ValueError, msg_dtype)
           else None
       end.

(** [orders], when it is an array, has a real-number dtype: the comparison
    [orders < 0] of line 112 is defined and raises nothing itself. *)
Definition real_orders (orders : pyobj) : Prop :=
  forall o, orders = PyArray o -> real_dtype (dtype o) = true.

(** The three type checks, one by one *)
Definition is_shell (x : pyobj) : Prop := exists sh, x = PyShell sh.

Definition is_points_array (x : pyobj) : Prop :=
  exists c, x = PyArray c /\ ndim c = 2 /\ dim 1 c = 3.

Definition is_orders_array (x : pyobj) : Prop :=
  exists o, x = PyArray o /\ shape o = [3].

End EvalDeriv.

Arguments SBool {F} b.
Arguments SInt {F} z.
Arguments PyNone {F}.
Arguments PyStr {F} s.

(** ** A concrete arithmetic to run the definitions

    Exact rational arithmetic, with the exponential cut off after the
    term of degree 12 of its series. *)

Module RationalOps.

Fixpoint exp_series (k : nat) (x term : Q) (n : Z) : Q :=
  match k with
  | O => term
  | S k' =>
      Qred (term + exp_series k' x (Qred (term * x / inject_Z n)) (n + 1)%Z)%Q
  end.

#[export] Instance rational_ops : FloatOps Q := {
  fofZ := inject_Z;
  fadd := fun a b => Qred (a + b)%Q;
  fsub := fun a b => Qred (a - b)%Q;
  fmul := fun a b => Qred (a * b)%Q;
  fopp := fun a => Qred (- a)%Q;
  fexp := fun x => exp_series 12 x 1 1;
  fltb := fun a b => negb (Qle_bool b a)
}.

Definition floats (sh : list nat) (l : list Q) : ndarray :=
  {| dtype := Float64; shape := sh; data := map SFloat l |}.

Definition ints (d : np_dtype) (sh : list nat) (l : list Z) : ndarray (F := Q) :=
  {| dtype := d; shape := sh; data := map SInt l |}.

(** An s-shell at the origin: one primitive of exponent 1 and coefficient 1. *)
Definition s_shell : GeneralizedContractionShell :=
  {| coord := floats [3] [0; 0; 0]%Q;
     exps := floats [1] [1]%Q;
     coeffs := floats [1; 1] [1]%Q;
     angmom := 0;
     angmom_components_cart := ints Int64 [1; 3] [0; 0; 0]%Z;
     norm_prim_cart := floats [1; 1] [7127 # 10000]%Q |}.

(** A p-shell at (1, 0, 0): two primitives, two segmented contractions. *)
Definition p_shell : GeneralizedContractionShell :=
  {| coord := floats [3] [1; 0; 0]%Q;
     exps := floats [2] [1 # 2; 2]%Q;
     coeffs := floats [2; 2] [1; 3 # 10; 1 # 5; 1]%Q;
     angmom := 1;
     angmom_components_cart := ints Int64 [3; 3] [1; 0; 0; 0; 1; 0; 0; 0; 1]%Z;
     norm_prim_cart := floats [2; 3] [1; 1; 1; 2; 2; 2]%Q |}.

Definition origin : ndarray := floats [1; 3] [0; 0; 0]%Q.

Definition two_points : ndarray := floats [2; 3] [0; 0; 0; 1; 1 # 2; 0]%Q.

Definition orders_of (d : np_dtype) (x y z : Z) : ndarray (F := Q) :=
  ints d [3] [x; y; z].

(** The cartesian-to-spherical transforms for L = 0 and L = 1 (the
    components y, z, x of the p-shell); nothing above that is needed here. *)
#[export] Instance transformation : CartesianToSpherical := fun L =>
  match L with
  | 0 => floats [1; 1] [1]%Q
  | 1 => floats [3; 3] [0; 1; 0; 0; 0; 1; 1; 0; 0]%Q
  | _ => floats [0; 0] []%Q
  end.

End RationalOps.

(** * Properties *)

(** ** Row-major lists *)

Section RowMajor.

Context {A : Type}.

Lemma length_tabulate (n : nat) (f : nat -> A) : length (tabulate n f) = n.
Proof. unfold tabulate. rewrite length_map, length_seq. reflexivity. Qed.

Lemma nth_tabulate (n : nat) (f : nat -> A) (i : nat) (d : A) :
  i < n -> nth i (tabulate n f) d = f i.
Proof.
  intros Hi. unfold tabulate.
  rewrite (nth_indep _ d (f 0)) by (rewrite length_map, length_seq; exact Hi).
  rewrite map_nth, seq_nth by exact Hi. reflexivity.
Qed.

Lemma tabulate_ext (n : nat) (f g : nat -> A) :
  (forall i, i < n -> f i = g i) -> tabulate n f = tabulate n g.
Proof.
  intros H. unfold tabulate. apply map_ext_in.
  intros i Hi. apply in_seq in Hi. apply H. lia.
Qed.

Lemma flat_map_ext_in {X : Type} (h h' : X -> list A) (l : list X) :
  (forall x, In x l -> h x = h' x) -> flat_map h l = flat_map h' l.
Proof.
  induction l as [|x l IH]; intros H; simpl; [reflexivity|].
  rewrite (H x (or_introl eq_refl)), IH; [reflexivity|].
  intros y Hy. apply H. right. exact Hy.
Qed.

(** Blocks of one length [n], one after the other *)
Lemma length_flat_map_blocks {X : Type} (h : X -> list A) (n : nat) (l : list X) :
  (forall x, In x l -> length (h x) = n) ->
  length (flat_map h l) = length l * n.
Proof.
  induction l as [|x l IH]; intros H; simpl; [reflexivity|].
  rewrite length_app, (H x (or_introl eq_refl)), IH; [reflexivity|].
  intros y Hy. apply H. right. exact Hy.
Qed.

Lemma nth_flat_map_blocks {X : Type} (h : X -> list A) (n : nat) (l : list X)
  (o j : nat) (dx : X) (d : A) :
  (forall x, In x l -> length (h x) = n) ->
  o < length l -> j < n ->
  nth (o * n + j) (flat_map h l) d = nth j (h (nth o l dx)) d.
Proof.
  revert o. induction l as [|x l IH]; intros o H Ho Hj; simpl in Ho; [lia|].
  assert (Hx : length (h x) = n) by (apply H; left; reflexivity).
  simpl flat_map. destruct o as [|o].
  - simpl. apply app_nth1. lia.
  - replace (S o * n + j) with (length (h x) + (o * n + j))
      by (rewrite Hx; lia).
    rewrite app_nth2_plus.
    change (nth (S o) (x :: l) dx) with (nth o l dx).
    apply IH; [|lia|exact Hj].
    intros y Hy. apply H. right. exact Hy.
Qed.

Lemma length_tabulate2 (n m : nat) (f : nat -> nat -> A) :
  length (tabulate2 n m f) = n * m.
Proof.
  unfold tabulate2.
  rewrite (length_flat_map_blocks _ m); [rewrite length_seq; reflexivity|].
  intros i _. apply length_tabulate.
Qed.


Lemma tabulate2_ext (n m : nat) (f g : nat -> nat -> A) :
  (forall i j, i < n -> j < m -> f i j = g i j) ->
  tabulate2 n m f = tabulate2 n m g.
Proof.
  intros H. unfold tabulate2. apply flat_map_ext_in.
  intros i Hi. apply in_seq in Hi. apply tabulate_ext.
  intros j Hj. apply H; lia.
Qed.

Lemma length_tabulate3 (n m k : nat) (f : nat -> nat -> nat -> A) :
  length (tabulate3 n m k f) = n * m * k.
Proof.
  unfold tabulate3.
  rewrite (length_flat_map_blocks _ (m * k)); [rewrite length_seq; lia|].
  intros i _. apply length_tabulate2.
Qed.


Lemma tabulate3_ext (n m k : nat) (f g : nat -> nat -> nat -> A) :
  (forall i j l, i < n -> j < m -> l < k -> f i j l = g i j l) ->
  tabulate3 n m k f = tabulate3 n m k g.
Proof.
  intros H. unfold tabulate3. apply flat_map_ext_in.
  intros i Hi. apply in_seq in Hi. apply tabulate2_ext.
  intros j l Hj Hl. apply H; lia.
Qed.

Lemma Forall_tabulate (P : A -> Prop) (n : nat) (f : nat -> A) :
  (forall i, P (f i)) -> Forall P (tabulate n f).
Proof.
  intros H. apply Forall_forall. intros x Hx.
  apply in_map_iff in Hx. destruct Hx as [i [<- _]]. apply H.
Qed.

Lemma Forall_tabulate2 (P : A -> Prop) (n m : nat) (f : nat -> nat -> A) :
  (forall i j, P (f i j)) -> Forall P (tabulate2 n m f).
Proof.
  intros H. apply Forall_forall. intros x Hx.
  apply in_flat_map in Hx. destruct Hx as [i [_ Hx]].
  revert x Hx. apply Forall_forall, Forall_tabulate. apply H.
Qed.

Lemma Forall_tabulate3 (P : A -> Prop) (n m k : nat)
  (f : nat -> nat -> nat -> A) :
  (forall i j l, P (f i j l)) -> Forall P (tabulate3 n m k f).
Proof.
  intros H. apply Forall_forall. intros x Hx.
  apply in_flat_map in Hx. destruct Hx as [i [_ Hx]].
  revert x Hx. apply Forall_forall, Forall_tabulate2. apply H.
Qed.

Lemma map_nth_seq (l : list A) (d : A) :
  map (fun i => nth i l d) (seq 0 (length l)) = l.
Proof.
  induction l as [|x l IH]; simpl; [reflexivity|].
  rewrite <- seq_shift, map_map. simpl. rewrite IH. reflexivity.
Qed.

Lemma flat_map_map {X Y : Type} (g : Y -> list A) (k : X -> Y) (l : list X) :
  flat_map g (map k l) = flat_map (fun x => g (k x)) l.
Proof.
  induction l as [|x l IH]; simpl; [reflexivity|]. rewrite IH. reflexivity.
Qed.

Lemma flat_map_flat_map {X Y : Type} (g : Y -> list A) (h : X -> list Y)
  (l : list X) :
  flat_map g (flat_map h l) = flat_map (fun x => flat_map g (h x)) l.
Proof.
  induction l as [|x l IH]; simpl; [reflexivity|].
  rewrite flat_map_app, IH. reflexivity.
Qed.

Lemma flat_map_seq_from (h : nat -> list A) (s n : nat) :
  flat_map h (seq s n) = flat_map (fun o => h (s + o)) (seq 0 n).
Proof.
  rewrite <- (flat_map_map h (Nat.add s)). f_equal.
  revert s. induction n as [|n IH]; intros s; simpl; [reflexivity|].
  rewrite Nat.add_0_r. f_equal.
  rewrite (IH (S s)), <- (seq_shift n 0), map_map.
  apply map_ext. intros o. lia.
Qed.

End RowMajor.

Section TakeLast.

Context {A : Type}.

Lemma map_as_tabulate (r : nat -> A) (idx : list nat) :
  map r idx = tabulate (length idx) (fun i => r (nth i idx 0)).
Proof.
  unfold tabulate. rewrite <- (map_map (fun i => nth i idx 0) r).
  rewrite map_nth_seq. reflexivity.
Qed.

Lemma flat_map_seq_rows {X : Type} (g : X -> list A) (rows : list X) (dr : X) :
  flat_map (fun o => g (nth o rows dr)) (seq 0 (length rows))
  = flat_map g rows.
Proof.
  rewrite <- (flat_map_map g (fun o => nth o rows dr)), map_nth_seq.
  reflexivity.
Qed.

Lemma length_take_last (d : A) (idx : list nat) (N outer : nat) (l : list A) :
  length (take_last d idx N outer l) = outer * length idx.
Proof.
  unfold take_last.
  rewrite (length_flat_map_blocks _ (length idx)); [rewrite length_seq; lia|].
  intros o _. apply length_map.
Qed.

(** The entry of row [o] that [take_last] puts at position [i] is the
    entry at position [idx[i]] of that row. *)
Lemma nth_take_last (d : A) (idx : list nat) (N outer : nat) (l : list A)
  (o i : nat) :
  o < outer -> i < length idx ->
  nth (o * length idx + i) (take_last d idx N outer l) d
  = nth (o * N + nth i idx 0) l d.
Proof.
  intros Ho Hi. unfold take_last.
  rewrite (nth_flat_map_blocks _ (length idx) _ _ _ 0 d);
    [|intros; apply length_map|rewrite length_seq; exact Ho|exact Hi].
  rewrite seq_nth by exact Ho. rewrite map_as_tabulate.
  rewrite nth_tabulate by exact Hi. reflexivity.
Qed.

Lemma take_last_rows (d : A) (idx : list nat) (N : nat)
  (rows : list (nat -> A)) :
  Forall (fun j => j < N) idx ->
  take_last d idx N (length rows) (flat_map (tabulate N) rows)
  = flat_map (fun r => map r idx) rows.
Proof.
  intros Hidx. unfold take_last.
  rewrite <- (flat_map_seq_rows (fun r => map r idx) rows (fun _ => d)).
  apply flat_map_ext_in. intros o Ho. apply in_seq in Ho.
  apply map_ext_in. intros j Hj.
  rewrite Forall_forall in Hidx. specialize (Hidx j Hj).
  rewrite (nth_flat_map_blocks _ N _ _ _ (fun _ => d) d);
    [|intros; apply length_tabulate|lia|exact Hidx].
  apply nth_tabulate. exact Hidx.
Qed.

Lemma tabulate2_rows (n m : nat) (f : nat -> nat -> A) :
  tabulate2 n m f = flat_map (tabulate m) (tabulate n f).
Proof.
  change (tabulate n f) with (map f (seq 0 n)).
  rewrite flat_map_map. reflexivity.
Qed.

Lemma tabulate3_rows (n m k : nat) (f : nat -> nat -> nat -> A) :
  tabulate3 n m k f = flat_map (tabulate k) (tabulate2 n m f).
Proof.
  change (tabulate2 n m f)
    with (flat_map (fun i => tabulate m (f i)) (seq 0 n)).
  rewrite flat_map_flat_map.
  apply flat_map_ext. intros i. apply tabulate2_rows.
Qed.

Lemma take_last_tabulate2 (d : A) (idx : list nat) (K N : nat)
  (f : nat -> nat -> A) :
  Forall (fun j => j < N) idx ->
  take_last d idx N K (tabulate2 K N f)
  = tabulate2 K (length idx) (fun k i => f k (nth i idx 0)).
Proof.
  intros Hidx. rewrite tabulate2_rows.
  rewrite <- (length_tabulate K f) at 1.
  rewrite take_last_rows by exact Hidx.
  change (tabulate K f) with (map f (seq 0 K)). rewrite flat_map_map.
  apply flat_map_ext. intros k. apply map_as_tabulate.
Qed.

Lemma take_last_tabulate3 (d : A) (idx : list nat) (M L N : nat)
  (f : nat -> nat -> nat -> A) :
  Forall (fun j => j < N) idx ->
  take_last d idx N (M * L) (tabulate3 M L N f)
  = tabulate3 M L (length idx) (fun m l i => f m l (nth i idx 0)).
Proof.
  intros Hidx. rewrite tabulate3_rows.
  rewrite <- (length_tabulate2 M L f) at 1.
  rewrite take_last_rows by exact Hidx.
  change (tabulate2 M L f)
    with (flat_map (fun i => tabulate L (f i)) (seq 0 M)).
  rewrite flat_map_flat_map.
  apply flat_map_ext. intros m.
  change (tabulate L (f m)) with (map (f m) (seq 0 L)). rewrite flat_map_map.
  apply flat_map_ext. intros l. apply map_as_tabulate.
Qed.

(** Rows of a concatenation: those of the first list, then those of the
    second. *)
Lemma take_last_app (d : A) (idx : list nat) (N n1 n2 : nat) (l1 l2 : list A) :
  length l1 = n1 * N -> Forall (fun j => j < N) idx ->
  take_last d idx N (n1 + n2) (l1 ++ l2)
  = take_last d idx N n1 l1 ++ take_last d idx N n2 l2.
Proof.
  intros Hlen Hidx. unfold take_last.
  rewrite Forall_forall in Hidx.
  rewrite seq_app, flat_map_app. f_equal.
  - apply flat_map_ext_in. intros o Ho. apply in_seq in Ho.
    apply map_ext_in. intros j Hj. specialize (Hidx j Hj).
    apply app_nth1. nia.
  - rewrite flat_map_seq_from. apply flat_map_ext. intros o.
    apply map_ext. intros j.
    replace ((0 + n1 + o) * N + j) with (length l1 + (o * N + j))
      by (rewrite Hlen; lia).
    apply app_nth2_plus.
Qed.

Lemma Permutation_seq_indices (idx : list nat) (N : nat) :
  Permutation idx (seq 0 N) ->
  length idx = N /\ Forall (fun j => j < N) idx.
Proof.
  intros Hp. split.
  - rewrite (Permutation_length Hp). apply length_seq.
  - apply Forall_forall. intros j Hj.
    apply (Permutation_in _ Hp), in_seq in Hj. lia.
Qed.

End TakeLast.


Section Validation.

Context {F : Type} {ops : FloatOps F} {pl : platform}.
Context {cart_to_sph : CartesianToSpherical (F := F)}.

Lemma dtype_eqb_eq (a b : np_dtype) : dtype_eqb a b = true <-> a = b.
Proof.
  unfold dtype_eqb. destruct (np_dtype_eq_dec a b); split; congruence.
Qed.

Lemma list_nat_eqb_refl (l : list nat) : list_nat_eqb l l = true.
Proof.
  unfold list_nat_eqb. destruct (list_eq_dec Nat.eq_dec l l); congruence.
Qed.

(** Past the three type checks the call is decided by the values and the
    dtype of [orders]. *)
Lemma construct_array_contraction_well_shaped
  (sh : GeneralizedContractionShell) (c o : ndarray) :
  ndim c = 2 -> dim 1 c = 3 -> shape o = [3] ->
  construct_array_contraction (PyShell sh) (PyArray c) (PyArray o) =
  if any_lt0 o then Raise ValueError
  else if negb (dtype_eqb (dtype o) (np_int pl)) then Raise ValueError
  else Return (_eval_deriv_contractions c o (coord sh)
                 (angmom_components_cart sh) (exps sh) (coeffs sh)
                 (norm_prim_cart sh)).
Proof.
  intros Hnd Hcols Hsh. unfold construct_array_contraction; simpl.
  unfold dim in Hcols. rewrite Hnd, Hcols, Hsh; simpl.
  change (list_nat_eqb [3] [3]) with true; simpl. reflexivity.
Qed.

Lemma any_lt0_Exists (o : ndarray (F := F)) :
  Exists (fun s => scalar_lt0 s = true) (data o) -> any_lt0 o = true.
Proof.
  intros H. unfold any_lt0. apply existsb_exists.
  apply Exists_exists in H. exact H.
Qed.

(** C4: a shell, a 2-D coords with 3 columns and an orders of shape (3,)
    with a negative element raise ValueError, not TypeError. *)
Theorem C4_negative_order_raises_ValueError
  (sh : GeneralizedContractionShell) (c o : ndarray) :
  ndim c = 2 -> dim 1 c = 3 -> shape o = [3] ->
  Exists (fun s => scalar_lt0 s = true) (data o) ->
  construct_array_contraction (PyShell sh) (PyArray c) (PyArray o)
  = Raise ValueError /\
  construct_array_contraction (PyShell sh) (PyArray c) (PyArray o)
  <> Raise TypeError.
Proof.
  intros Hnd Hcols Hsh Hneg.
  rewrite construct_array_contraction_well_shaped by assumption.
  rewrite (any_lt0_Exists _ Hneg). split; congruence.
Qed.

Lemma np_int_not_floating : is_floating (np_int pl) = false.
Proof. destruct pl; reflexivity. Qed.


(** An orders of shape (3,) of a dtype other than [np.dtype(int)] raises
    ValueError, whatever its elements are. *)
Lemma dtype_mismatch_raises (sh : GeneralizedContractionShell) (c o : ndarray) :
  ndim c = 2 -> dim 1 c = 3 -> shape o = [3] -> dtype o <> np_int pl ->
  construct_array_contraction (PyShell sh) (PyArray c) (PyArray o)
  = Raise ValueError.
Proof.
  intros Hnd Hcols Hsh Hdt.
  rewrite construct_array_contraction_well_shaped by assumption.
  destruct (any_lt0 o); [reflexivity|].
  destruct (dtype_eqb (dtype o) (np_int pl)) eqn:E; [|reflexivity].
  apply dtype_eqb_eq in E. contradiction.
Qed.

(** C5: an orders of shape (3,) of a floating-point dtype raises ValueError,
    also when no element is negative and every element is integral. *)
Theorem C5_float_orders_raise_ValueError
  (sh : GeneralizedContractionShell) (c o : ndarray) :
  ndim c = 2 -> dim 1 c = 3 -> shape o = [3] ->
  is_floating (dtype o) = true ->
  any_lt0 o = false ->
  construct_array_contraction (PyShell sh) (PyArray c) (PyArray o)
  = Raise ValueError.
Proof.
  intros Hnd Hcols Hsh Hfl _.
  apply dtype_mismatch_raises; try assumption.
  intros E. rewrite E, np_int_not_floating in Hfl. discriminate.
Qed.

Lemma list_nat_eqb_eq (a b : list nat) : list_nat_eqb a b = true <-> a = b.
Proof.
  unfold list_nat_eqb. destruct (list_eq_dec Nat.eq_dec a b); split; congruence.
Qed.



(** C10: orders is accepted only with the dtype [np.dtype(int)]; an orders
    of another integral dtype with no negative element raises ValueError. *)
Theorem C10_only_default_int_dtype_accepted
  (sh : GeneralizedContractionShell) (c o : ndarray) :
  ndim c = 2 -> dim 1 c = 3 -> shape o = [3] ->
  (forall a,
     construct_array_contraction (PyShell sh) (PyArray c) (PyArray o)
     = Return a -> dtype o = np_int pl) /\
  (is_integral (dtype o) = true -> dtype o <> np_int pl ->
   any_lt0 o = false ->
   construct_array_contraction (PyShell sh) (PyArray c) (PyArray o)
   = Raise ValueError).
Proof.
  intros Hnd Hcols Hsh. split.
  - intros a. rewrite construct_array_contraction_well_shaped by assumption.
    destruct (any_lt0 o); [discriminate|].
    destruct (dtype_eqb (dtype o) (np_int pl)) eqn:E; [|discriminate].
    intros _. apply dtype_eqb_eq. exact E.
  - intros _ Hdt _. apply dtype_mismatch_raises; assumption.
Qed.

Lemma coord_type_eqb_eq (c : coord_type_arg) (s : string) :
  coord_type_eqb c s = true <-> c = CoordStr s.
Proof.
  destruct c as [s'|l]; simpl.
  - rewrite String.eqb_eq. split; congruence.
  - split; discriminate.
Qed.

Lemma coord_type_eqb_refl (s : string) : coord_type_eqb (CoordStr s) s = true.
Proof. apply coord_type_eqb_eq. reflexivity. Qed.

Lemma coord_type_eqb_neq (c : coord_type_arg) (s : string) :
  c <> CoordStr s -> coord_type_eqb c s = false.
Proof.
  intros H. destruct (coord_type_eqb c s) eqn:E; [|reflexivity].
  apply coord_type_eqb_eq in E. contradiction.
Qed.

(** C2: the dispatch of evaluate_deriv_basis: a transform first, and the
    linear combination is taken of the array that coord_type selects; then
    "cartesian"; then "spherical"; then the per-shell mix. *)
Theorem C2_dispatch_precedence
  (basis : list GeneralizedContractionShell) (points orders : pyobj)
  (coord_type : coord_type_arg) :
  (forall t,
     evaluate_deriv_basis basis points orders (Some t) (Some coord_type)
     = construct_array_lincomb basis t coord_type
         points orders /\
     construct_array_lincomb basis t coord_type
       points orders
     = (a <- evaluate_deriv_basis basis points orders None (Some coord_type) ;;
        if (ndim t =? 2) && (dim 1 t =? dim 0 a)
        then Return (tensordot t a) else Raise TypeError)) /\
  (coord_type = CoordStr "cartesian" ->
   evaluate_deriv_basis basis points orders None (Some coord_type)
   = construct_array_cartesian basis points orders) /\
  (coord_type <> CoordStr "cartesian" -> coord_type = CoordStr "spherical" ->
   evaluate_deriv_basis basis points orders None (Some coord_type)
   = construct_array_spherical basis points orders) /\
  (coord_type <> CoordStr "cartesian" -> coord_type <> CoordStr "spherical" ->
   evaluate_deriv_basis basis points orders None (Some coord_type)
   = construct_array_mix basis coord_type
       points orders).
Proof.
  split; [|split; [|split]].
  - intros t. split; reflexivity.
  - intros ->. reflexivity.
  - intros _ ->. reflexivity.
  - intros H1 H2. unfold evaluate_deriv_basis.
    rewrite (coord_type_eqb_neq _ _ H1), (coord_type_eqb_neq _ _ H2). reflexivity.
Qed.

(** C9: without coord_type and without transform the call is the one with
    coord_type="spherical", the array of the spherical contractions. *)
Theorem C9_default_coord_type_spherical
  (basis : list GeneralizedContractionShell) (points orders : pyobj) :
  evaluate_deriv_basis basis points orders None None
  = evaluate_deriv_basis basis points orders None (Some (CoordStr "spherical"))
  /\
  evaluate_deriv_basis basis points orders None None
  = construct_array_spherical basis points orders
  /\
  (forall t,
     evaluate_deriv_basis basis points orders (Some t) None
     = evaluate_deriv_basis basis points orders (Some t)
         (Some (CoordStr "spherical"))).
Proof. repeat split. Qed.

End Validation.

(** ** The shell array constructor on valid arguments *)

Section Evaluator.

Context {F : Type} {ops : FloatOps F} {pl : platform}.

Lemma valid_orders_no_negative (o : ndarray (F := F)) :
  valid_orders o -> any_lt0 o = false.
Proof.
  intros [[_ Hty] [_ [Hdt Hpos]]]. rewrite Hdt in Hty.
  unfold any_lt0. induction (data o) as [|s l IH]; [reflexivity|].
  inversion Hty as [|? ? Hs Hl]; subst.
  inversion Hpos as [|? ? Hs' Hl']; subst.
  simpl. rewrite (IH Hl Hl'), orb_false_r.
  destruct s as [b|z|x]; simpl in *.
  - reflexivity.
  - apply Z.ltb_ge. exact Hs'.
  - rewrite np_int_not_floating in Hs. discriminate.
Qed.

Lemma valid_coords_columns (c : ndarray (F := F)) (N : nat) :
  valid_coords c N -> ndim c = 2 /\ dim 1 c = 3 /\ dim 0 c = N.
Proof.
  intros [_ Hsh]. unfold ndim, dim. rewrite Hsh. repeat split.
Qed.

(** Valid arguments pass every check: the result is the evaluator's. *)
Lemma construct_array_contraction_valid
  (sh : GeneralizedContractionShell) (c o : ndarray) (N : nat) :
  valid_coords c N -> valid_orders o ->
  construct_array_contraction (PyShell sh) (PyArray c) (PyArray o)
  = Return (_eval_deriv_contractions c o (coord sh)
              (angmom_components_cart sh) (exps sh) (coeffs sh)
              (norm_prim_cart sh)).
Proof.
  intros Hc Ho.
  destruct (valid_coords_columns _ _ Hc) as [Hnd [Hcols _]].
  rewrite construct_array_contraction_well_shaped;
    [|exact Hnd|exact Hcols|apply Ho].
  rewrite (valid_orders_no_negative _ Ho).
  destruct Ho as [_ [_ [Hdt _]]].
  apply dtype_eqb_eq in Hdt. rewrite Hdt. reflexivity.
Qed.

Lemma wf_eval_deriv_contractions
  (coords orders center angmom_comps alphas prim_coeffs norm
     : ndarray (F := F)) :
  wf_ndarray (_eval_deriv_contractions coords orders center angmom_comps
                alphas prim_coeffs norm).
Proof.
  split; simpl.
  - rewrite length_tabulate3. lia.
  - apply Forall_tabulate3. intros; reflexivity.
Qed.

(** C1: for a valid shell with M segmented contractions and L_cart
    Cartesian components, N points and a valid order triple, the call
    returns an array of shape (M, L_cart, N), holding M * L_cart * N
    floating-point values. *)
Theorem C1_output_shape
  (sh : GeneralizedContractionShell) (P M L_cart : nat)
  (c o : ndarray) (N : nat) :
  valid_shell sh P M L_cart -> valid_coords c N -> valid_orders o ->
  exists a,
    construct_array_contraction (PyShell sh) (PyArray c) (PyArray o)
    = Return a /\
    shape a = [M; L_cart; N] /\
    wf_ndarray a /\ length (data a) = M * L_cart * N.
Proof.
  intros Hsh Hc Ho.
  rewrite (construct_array_contraction_valid sh c o N Hc Ho).
  eexists; split; [reflexivity|].
  destruct Hsh as [_ [_ [[_ Hco] [[_ [Han _]] _]]]].
  destruct (valid_coords_columns _ _ Hc) as [_ [_ HN]].
  split; [|split].
  - simpl. unfold dim in *. rewrite Hco, Han. simpl. rewrite HN. reflexivity.
  - apply wf_eval_deriv_contractions.
  - simpl. rewrite length_tabulate3. unfold dim in *.
    rewrite Hco, Han. simpl. rewrite HN. reflexivity.
Qed.


End Evaluator.

(** ** Concatenation over the shells *)

Section Assembly.

Context {F : Type} {ops : FloatOps F} {pl : platform}.
Context {cart_to_sph : CartesianToSpherical (F := F)}.

Lemma sequence_map_Return {X A : Type} (f : X -> result A) (g : X -> A)
  (l : list X) :
  (forall x, In x l -> f x = Return (g x)) ->
  sequence (map f l) = Return (map g l).
Proof.
  induction l as [|x l IH]; intros H; simpl; [reflexivity|].
  rewrite (H x (or_introl eq_refl)), IH; [reflexivity|].
  intros y Hy. apply H. right. exact Hy.
Qed.

Lemma map_combine_const {X K B : Type} (h : K -> X -> B) (k : K) (l : list X) :
  map (fun p => h (snd p) (fst p)) (combine l (map (fun _ => k) l))
  = map (h k) l.
Proof.
  induction l as [|x l IH]; simpl; [reflexivity|]. rewrite IH. reflexivity.
Qed.

Lemma construct_array_cartesian_valid
  (basis : list GeneralizedContractionShell) (c o : ndarray) (N : nat) :
  valid_coords c N -> valid_orders o ->
  construct_array_cartesian basis (PyArray c) (PyArray o)
  = Return (concatenate N
              (map (fun sh => flatten_functions (shell_values sh c o)) basis)).
Proof.
  intros Hc Ho. unfold construct_array_cartesian, construct_array_kinds.
  rewrite (map_combine_const
             (fun k sh => shell_array k sh (PyArray c) (PyArray o))).
  rewrite (sequence_map_Return _
             (fun sh => flatten_functions (shell_values sh c o))).
  - simpl. destruct (valid_coords_columns _ _ Hc) as [_ [_ ->]]. reflexivity.
  - intros sh _. unfold shell_array.
    rewrite (construct_array_contraction_valid sh c o N Hc Ho). reflexivity.
Qed.

Lemma cart_count_sum (basis : list GeneralizedContractionShell)
  (c o : ndarray) :
  list_sum (map (dim 0)
              (map (fun sh => flatten_functions (shell_values sh c o)) basis))
  = list_sum (map cart_count basis).
Proof.
  rewrite map_map. f_equal.
Qed.

(** C7: over a basis whose shells have c1, c2, ... Cartesian functions, N
    valid points and a valid order triple, coord_type="cartesian" without
    transform gives shape (sum ci, N), the arrays of the shells one after
    the other in the order of the basis; with a transform of shape
    (K_orbs, sum ci) the shape is (K_orbs, N). *)
Theorem C7_concatenation_shape
  (basis : list GeneralizedContractionShell) (c o : ndarray) (N : nat) :
  valid_coords c N -> valid_orders o ->
  (exists a arrays,
     evaluate_deriv_basis basis (PyArray c) (PyArray o) None
       (Some (CoordStr "cartesian")) = Return a /\
     shape a = [list_sum (map cart_count basis); N] /\
     Forall2 (fun sh a_sh =>
                construct_array_contraction (PyShell sh) (PyArray c) (PyArray o)
                = Return a_sh) basis arrays /\
     data a = concat (map data arrays)) /\
  (forall t K_orbs,
     shape t = [K_orbs; list_sum (map cart_count basis)] ->
     exists b,
       evaluate_deriv_basis basis (PyArray c) (PyArray o) (Some t)
         (Some (CoordStr "cartesian")) = Return b /\
       shape b = [K_orbs; N]).
Proof.
  intros Hc Ho. split.
  - exists (concatenate N
              (map (fun sh => flatten_functions (shell_values sh c o)) basis)),
           (map (fun sh => shell_values sh c o) basis).
    split; [|split; [|split]].
    + simpl. apply construct_array_cartesian_valid; assumption.
    + simpl. rewrite cart_count_sum. reflexivity.
    + induction basis as [|sh basis IH]; simpl; constructor; [|exact IH].
      apply (construct_array_contraction_valid sh c o N Hc Ho).
    + simpl. rewrite !map_map. reflexivity.
  - intros t K Ht. eexists. split.
    + unfold evaluate_deriv_basis, construct_array_lincomb,
        construct_array_coord_type. simpl coord_type_eqb. cbv iota.
      rewrite (construct_array_cartesian_valid basis c o N Hc Ho).
      unfold bind, ndim, dim. rewrite Ht. simpl shape.
      rewrite cart_count_sum. simpl. rewrite Nat.eqb_refl. reflexivity.
    + simpl. unfold dim. rewrite Ht. reflexivity.
Qed.

End Assembly.

(** ** Reordering the points *)

Section Reordering.

Context {F : Type} {ops : FloatOps F} {pl : platform}.
Context {cart_to_sph : CartesianToSpherical (F := F)}.

Variable idx : list nat.
Variable N : nat.
Hypothesis idx_in_range : Forall (fun j => j < N) idx.

Lemma dim1_take_rows (a : ndarray (F := F)) : dim 1 (take_rows idx a) = dim 1 a.
Proof. unfold dim. simpl. destruct (shape a); reflexivity. Qed.

(** Row [i] of [a[idx]] is row [idx[i]] of [a]. *)
Lemma get2_take_rows (a : ndarray (F := F)) (i j : nat) :
  i < length idx -> j < dim 1 a ->
  get2 (take_rows idx a) i j = get2 a (nth i idx 0) j.
Proof.
  intros Hi Hj. unfold get2. rewrite dim1_take_rows. simpl.
  rewrite (nth_flat_map_blocks _ (dim 1 a) _ _ _ 0 (SInt 0));
    [|intros; apply length_tabulate|exact Hi|exact Hj].
  rewrite nth_tabulate by exact Hj. reflexivity.
Qed.

(** Entry [i] of the last axis of [a[..., idx]] is entry [idx[i]] of [a]. *)
Lemma get3_take_points (a : ndarray (F := F)) (M L N' m l i : nat) :
  shape a = [M; L; N'] -> m < M -> l < L -> i < length idx ->
  get3 (take_points idx a) m l i = get3 a m l (nth i idx 0).
Proof.
  intros Hsh Hm Hl Hi. unfold get3, dim, take_points. simpl. rewrite Hsh.
  simpl. apply nth_take_last; [nia|exact Hi].
Qed.

Lemma get2_take_points (a : ndarray (F := F)) (C N' j i : nat) :
  shape a = [C; N'] -> j < C -> i < length idx ->
  get2 (take_points idx a) j i = get2 a j (nth i idx 0).
Proof.
  intros Hsh Hj Hi. unfold get2, dim, take_points. simpl. rewrite Hsh.
  simpl. apply nth_take_last; [lia|exact Hi].
Qed.

Lemma contract_ext (P : nat) (c c' f f' : nat -> F) :
  (forall p, p < P -> c p = c' p) -> (forall p, p < P -> f p = f' p) ->
  contract P c f = contract P c' f'.
Proof.
  intros Hc Hf. unfold contract. f_equal. apply map_ext_in.
  intros p Hp. apply in_seq in Hp. rewrite Hc, Hf by lia. reflexivity.
Qed.

(** The value depends on the displacement along the three axes only. *)
Lemma deriv_contraction_ext
  (orders angmom_comps alphas prim_coeffs norm : ndarray (F := F))
  (x x' : nat -> F) (m l : nat) :
  x 0 = x' 0 -> x 1 = x' 1 -> x 2 = x' 2 ->
  deriv_contraction orders angmom_comps alphas prim_coeffs norm x m l
  = deriv_contraction orders angmom_comps alphas prim_coeffs norm x' m l.
Proof.
  intros H0 H1 H2. unfold deriv_contraction. apply contract_ext.
  - reflexivity.
  - intros p _. unfold primitive_value. rewrite H0, H1, H2. reflexivity.
Qed.

Lemma displacement_take_rows (c center : ndarray (F := F)) (i a : nat) :
  dim 1 c = 3 -> i < length idx -> a < 3 ->
  displacement (take_rows idx c) center i a
  = displacement c center (nth i idx 0) a.
Proof.
  intros Hcols Hi Ha. unfold displacement.
  rewrite get2_take_rows by (rewrite ?Hcols; assumption). reflexivity.
Qed.

(** The evaluator on reordered points: the last axis reordered. *)
Lemma eval_deriv_contractions_take_rows
  (c o center angmom_comps alphas prim_coeffs norm : ndarray (F := F)) :
  shape c = [N; 3] ->
  _eval_deriv_contractions (take_rows idx c) o center angmom_comps alphas
    prim_coeffs norm
  = take_points idx
      (_eval_deriv_contractions c o center angmom_comps alphas prim_coeffs
         norm).
Proof.
  intros Hsh.
  assert (Hcols : dim 1 c = 3) by (unfold dim; rewrite Hsh; reflexivity).
  assert (HN : dim 0 c = N) by (unfold dim; rewrite Hsh; reflexivity).
  unfold _eval_deriv_contractions, take_points. simpl.
  change (dim 0 (take_rows idx c)) with (length idx). rewrite HN.
  f_equal.
  rewrite Nat.mul_1_r, take_last_tabulate3 by exact idx_in_range.
  apply tabulate3_ext. intros m l i _ _ Hi. f_equal.
  apply deriv_contraction_ext; apply displacement_take_rows; auto.
Qed.

Lemma construct_array_contraction_take_rows
  (contractions : pyobj) (c : ndarray) (orders : pyobj) :
  shape c = [N; 3] ->
  construct_array_contraction contractions (PyArray (take_rows idx c)) orders
  = fmap (take_points idx)
      (construct_array_contraction contractions (PyArray c) orders).
Proof.
  intros Hsh. unfold construct_array_contraction.
  destruct contractions as [| |?|sh|?]; try reflexivity. simpl.
  unfold ndim. simpl. rewrite Hsh. simpl.
  destruct orders as [| |?|?|o]; try reflexivity. simpl.
  destruct (list_nat_eqb (shape o) [3]); [|reflexivity]. simpl.
  destruct (any_lt0 o); [reflexivity|].
  destruct (negb (dtype_eqb (dtype o) (np_int pl))); [reflexivity|].
  unfold fmap. simpl. f_equal.
  apply eval_deriv_contractions_take_rows. exact Hsh.
Qed.

(** What the constructor returns is the evaluator's array. *)
Lemma construct_array_contraction_Return
  (sh : GeneralizedContractionShell) (c : ndarray) (orders : pyobj)
  (a : ndarray) :
  construct_array_contraction (PyShell sh) (PyArray c) orders = Return a ->
  exists o, orders = PyArray o /\ a = shell_values sh c o.
Proof.
  unfold construct_array_contraction. simpl.
  destruct ((ndim c =? 2) && (nth 1 (shape c) 0 =? 3)); [|discriminate].
  simpl. destruct orders as [| |?|?|o]; try discriminate. simpl.
  destruct (list_nat_eqb (shape o) [3]); [|discriminate]. simpl.
  destruct (any_lt0 o); [discriminate|].
  destruct (negb (dtype_eqb (dtype o) (np_int pl))); [discriminate|].
  intros H. injection H as <-. exists o. split; reflexivity.
Qed.

Lemma flatten_functions_take_points (a : ndarray (F := F)) (M L N' : nat) :
  shape a = [M; L; N'] ->
  flatten_functions (take_points idx a)
  = take_points idx (flatten_functions a).
Proof.
  intros Hsh. unfold flatten_functions, take_points, dim. simpl.
  rewrite Hsh. simpl. f_equal. f_equal. lia.
Qed.

Lemma to_spherical_take_points (T a : ndarray (F := F)) (M L : nat) :
  shape a = [M; L; N] ->
  to_spherical T (take_points idx a) = take_points idx (to_spherical T a).
Proof.
  intros Hsh. unfold to_spherical.
  assert (H0 : dim 0 (take_points idx a) = M)
    by (unfold dim; simpl; rewrite Hsh; reflexivity).
  assert (H1 : dim 1 (take_points idx a) = L)
    by (unfold dim; simpl; rewrite Hsh; reflexivity).
  assert (H2 : dim 2 (take_points idx a) = length idx)
    by (unfold dim; simpl; rewrite Hsh; reflexivity).
  assert (A0 : dim 0 a = M) by (unfold dim; rewrite Hsh; reflexivity).
  assert (A1 : dim 1 a = L) by (unfold dim; rewrite Hsh; reflexivity).
  assert (A2 : dim 2 a = N) by (unfold dim; rewrite Hsh; reflexivity).
  rewrite H0, H1, H2, A0, A1, A2.
  unfold take_points at 2. simpl.
  change (nth 0 (shape T) 0) with (dim 0 T). f_equal.
  rewrite Nat.mul_1_r, take_last_tabulate3 by exact idx_in_range.
  apply tabulate3_ext. intros m s i Hm _ Hi. f_equal.
  apply contract_ext; [reflexivity|].
  intros l Hl. f_equal.
  apply (get3_take_points a M L N); assumption.
Qed.

Lemma shell_array_take_rows (k : coord_kind)
  (sh : GeneralizedContractionShell) (c : ndarray) (orders : pyobj) :
  shape c = [N; 3] ->
  shell_array k sh (PyArray (take_rows idx c)) orders
  = fmap (take_points idx) (shell_array k sh (PyArray c) orders).
Proof.
  intros Hsh. unfold shell_array.
  rewrite (construct_array_contraction_take_rows _ _ _ Hsh).
  destruct (construct_array_contraction (PyShell sh) (PyArray c) orders)
    as [a|e] eqn:E; [|reflexivity].
  apply construct_array_contraction_Return in E. destruct E as [o [_ ->]].
  assert (Ha : shape (shell_values sh c o)
               = [num_seg_cont sh; num_cart sh; N]).
  { simpl. unfold dim at 3. rewrite Hsh. reflexivity. }
  unfold fmap. simpl. f_equal. destruct k.
  - apply (flatten_functions_take_points _ _ _ _ Ha).
  - rewrite (to_spherical_take_points _ _ _ _ Ha).
    apply (flatten_functions_take_points _ (num_seg_cont sh)
             (dim 0 (generate_transformation (angmom sh))) N).
    unfold to_spherical. cbn [shape]. unfold dim. rewrite Ha. reflexivity.
Qed.

(** What a shell contributes has one column per point. *)
Lemma shell_array_rows_of_points (k : coord_kind)
  (sh : GeneralizedContractionShell) (c : ndarray) (orders : pyobj)
  (a : ndarray) :
  shape c = [N; 3] ->
  shell_array k sh (PyArray c) orders = Return a -> rows_of_points N a.
Proof.
  intros Hsh. unfold shell_array.
  destruct (construct_array_contraction (PyShell sh) (PyArray c) orders)
    as [a'|e] eqn:E; [|discriminate].
  apply construct_array_contraction_Return in E. destruct E as [o [_ ->]].
  simpl. intros H. injection H as <-.
  assert (HN : dim 0 c = N) by (unfold dim; rewrite Hsh; reflexivity).
  destruct k.
  - exists (num_seg_cont sh * num_cart sh).
    unfold flatten_functions, shell_values, _eval_deriv_contractions.
    cbn [shape data]. rewrite length_tabulate3, HN. split; reflexivity.
  - exists (num_seg_cont sh * dim 0 (generate_transformation (angmom sh))).
    unfold flatten_functions, to_spherical, shell_values,
      _eval_deriv_contractions.
    cbn [shape data]. rewrite length_tabulate3.
    change (dim 2 _) with (dim 0 c). rewrite HN. split; reflexivity.
Qed.

Lemma sequence_fmap {X A B : Type} (f : X -> result A) (f' : X -> result B)
  (g : A -> B) (l : list X) :
  (forall x, In x l -> f' x = fmap g (f x)) ->
  sequence (map f' l) = fmap (map g) (sequence (map f l)).
Proof.
  induction l as [|x l IH]; intros H; simpl; [reflexivity|].
  rewrite (H x (or_introl eq_refl)), IH by (intros y Hy; apply H; right; exact Hy).
  destruct (f x) as [a|e]; simpl; [|reflexivity].
  destruct (sequence (map f l)); reflexivity.
Qed.

Lemma sequence_Forall {X A : Type} (f : X -> result A) (Q : A -> Prop)
  (l : list X) (ms : list A) :
  (forall x a, In x l -> f x = Return a -> Q a) ->
  sequence (map f l) = Return ms -> Forall Q ms.
Proof.
  revert ms. induction l as [|x l IH]; intros ms H; simpl.
  - intros E. injection E as <-. constructor.
  - destruct (f x) as [a|e] eqn:Ea; simpl; [|discriminate].
    destruct (sequence (map f l)) as [rest|e] eqn:Er; simpl; [|discriminate].
    intros E. injection E as <-. constructor.
    + apply (H x a); [left; reflexivity|exact Ea].
    + apply IH; [|reflexivity].
      intros y b Hy. apply H. right. exact Hy.
Qed.

Lemma take_points_matrix (d : np_dtype) (K N' : nat) (l : list scalar) :
  take_points idx {| dtype := d; shape := [K; N']; data := l |}
  = {| dtype := d; shape := [K; length idx];
       data := take_last (SInt (F := F) 0) idx N' K l |}.
Proof. unfold take_points. simpl. rewrite Nat.mul_1_r. reflexivity. Qed.

Lemma data_take_points_rows (m : ndarray (F := F)) (k : nat) :
  shape m = [k; N] ->
  dim 0 (take_points idx m) = k /\
  data (take_points idx m) = take_last (SInt 0) idx N k (data m).
Proof.
  intros Hk. unfold dim, take_points. simpl. rewrite Hk. simpl.
  rewrite Nat.mul_1_r. split; reflexivity.
Qed.

Lemma concatenate_take_points (ms : list (ndarray (F := F))) :
  Forall (rows_of_points N) ms ->
  concatenate (length idx) (map (take_points idx) ms)
  = take_points idx (concatenate N ms).
Proof.
  intros Hms. unfold concatenate. rewrite take_points_matrix.
  assert (Hsum : list_sum (map (dim 0) (map (take_points idx) ms))
                 = list_sum (map (dim 0) ms)).
  { rewrite map_map. f_equal. apply map_ext_in. intros m Hm.
    rewrite Forall_forall in Hms. destruct (Hms m Hm) as [k [Hk _]].
    rewrite (proj1 (data_take_points_rows m k Hk)).
    unfold dim. rewrite Hk. reflexivity. }
  rewrite Hsum. clear Hsum. f_equal.
  induction Hms as [|m ms [k [Hk Hlen]] Hms IH]; [reflexivity|].
  assert (Hd : dim 0 m = k) by (unfold dim; rewrite Hk; reflexivity).
  cbn [map concat list_sum fold_right]. rewrite IH, Hd.
  rewrite (proj2 (data_take_points_rows m k Hk)).
  symmetry. apply take_last_app; [exact Hlen|exact idx_in_range].
Qed.

Lemma construct_array_kinds_take_rows
  (basis : list GeneralizedContractionShell) (kinds : list coord_kind)
  (c : ndarray) (orders : pyobj) :
  shape c = [N; 3] ->
  construct_array_kinds basis kinds (PyArray (take_rows idx c)) orders
  = fmap (take_points idx)
      (construct_array_kinds basis kinds (PyArray c) orders).
Proof.
  intros Hsh. unfold construct_array_kinds.
  rewrite (sequence_fmap
             (fun p => shell_array (snd p) (fst p) (PyArray c) orders)
             _ (take_points idx))
    by (intros p _; apply shell_array_take_rows; exact Hsh).
  destruct (sequence _) as [ms|e] eqn:E; [|reflexivity].
  unfold fmap. simpl. f_equal.
  unfold dim at 2. rewrite Hsh. simpl nth.
  apply concatenate_take_points.
  apply (sequence_Forall _ _ _ _ (fun p a _ => shell_array_rows_of_points
           (snd p) (fst p) c orders a Hsh) E).
Qed.

Lemma construct_array_kinds_shape
  (basis : list GeneralizedContractionShell) (kinds : list coord_kind)
  (c : ndarray) (orders : pyobj) (a : ndarray) :
  shape c = [N; 3] ->
  construct_array_kinds basis kinds (PyArray c) orders = Return a ->
  exists K, shape a = [K; N].
Proof.
  intros Hsh. unfold construct_array_kinds.
  destruct (sequence _) as [ms|e]; [|discriminate].
  simpl. intros H. injection H as <-. eexists. simpl.
  unfold dim at 2. rewrite Hsh. reflexivity.
Qed.

Lemma construct_array_mix_take_rows
  (basis : list GeneralizedContractionShell) (coord_types : coord_type_arg)
  (c : ndarray) (orders : pyobj) :
  shape c = [N; 3] ->
  construct_array_mix basis coord_types (PyArray (take_rows idx c)) orders
  = fmap (take_points idx)
      (construct_array_mix basis coord_types (PyArray c) orders).
Proof.
  intros Hsh. unfold construct_array_mix.
  destruct coord_types as [s|l]; [reflexivity|].
  destruct (parse_kinds l) as [kinds|]; [|reflexivity].
  destruct (length kinds =? length basis); [|reflexivity].
  apply construct_array_kinds_take_rows. exact Hsh.
Qed.

Lemma construct_array_coord_type_take_rows
  (basis : list GeneralizedContractionShell) (coord_type : coord_type_arg)
  (c : ndarray) (orders : pyobj) :
  shape c = [N; 3] ->
  construct_array_coord_type basis coord_type (PyArray (take_rows idx c))
    orders
  = fmap (take_points idx)
      (construct_array_coord_type basis coord_type (PyArray c) orders).
Proof.
  intros Hsh. unfold construct_array_coord_type.
  destruct (coord_type_eqb coord_type "cartesian");
    [apply construct_array_kinds_take_rows; exact Hsh|].
  destruct (coord_type_eqb coord_type "spherical");
    [apply construct_array_kinds_take_rows; exact Hsh|].
  apply construct_array_mix_take_rows. exact Hsh.
Qed.

Lemma construct_array_coord_type_shape
  (basis : list GeneralizedContractionShell) (coord_type : coord_type_arg)
  (c : ndarray) (orders : pyobj) (a : ndarray) :
  shape c = [N; 3] ->
  construct_array_coord_type basis coord_type (PyArray c) orders = Return a ->
  exists K, shape a = [K; N].
Proof.
  intros Hsh. unfold construct_array_coord_type, construct_array_cartesian,
    construct_array_spherical, construct_array_mix.
  destruct (coord_type_eqb coord_type "cartesian");
    [apply construct_array_kinds_shape; exact Hsh|].
  destruct (coord_type_eqb coord_type "spherical");
    [apply construct_array_kinds_shape; exact Hsh|].
  destruct coord_type as [s|l]; [discriminate|].
  destruct (parse_kinds l) as [kinds|]; [|discriminate].
  destruct (length kinds =? length basis); [|discriminate].
  apply construct_array_kinds_shape. exact Hsh.
Qed.

Lemma tensordot_take_points (t a : ndarray (F := F)) (C : nat) :
  shape a = [C; N] ->
  tensordot t (take_points idx a) = take_points idx (tensordot t a).
Proof.
  intros Hsh. unfold tensordot.
  assert (H0 : dim 0 (take_points idx a) = C)
    by (unfold dim; simpl; rewrite Hsh; reflexivity).
  assert (H1 : dim 1 (take_points idx a) = length idx)
    by (unfold dim; simpl; rewrite Hsh; reflexivity).
  assert (A0 : dim 0 a = C) by (unfold dim; rewrite Hsh; reflexivity).
  assert (A1 : dim 1 a = N) by (unfold dim; rewrite Hsh; reflexivity).
  rewrite H0, H1, A0, A1.
  unfold take_points at 2. simpl.
  change (nth 0 (shape t) 0) with (dim 0 t). f_equal.
  rewrite Nat.mul_1_r, take_last_tabulate2 by exact idx_in_range.
  apply tabulate2_ext. intros k i _ Hi. f_equal.
  apply contract_ext; [reflexivity|].
  intros j Hj. f_equal.
  apply (get2_take_points a C N); assumption.
Qed.

Lemma construct_array_lincomb_take_rows
  (basis : list GeneralizedContractionShell) (t : ndarray)
  (coord_type : coord_type_arg) (c : ndarray) (orders : pyobj) :
  shape c = [N; 3] ->
  construct_array_lincomb basis t coord_type (PyArray (take_rows idx c))
    orders
  = fmap (take_points idx)
      (construct_array_lincomb basis t coord_type (PyArray c) orders).
Proof.
  intros Hsh. unfold construct_array_lincomb.
  rewrite (construct_array_coord_type_take_rows _ _ _ _ Hsh).
  destruct (construct_array_coord_type basis coord_type (PyArray c) orders)
    as [a|e] eqn:E; [|reflexivity].
  destruct (construct_array_coord_type_shape _ _ _ _ _ Hsh E) as [K HK].
  unfold fmap. simpl.
  replace (dim 0 (take_points idx a)) with (dim 0 a)
    by (unfold dim; simpl; rewrite HK; reflexivity).
  destruct ((ndim t =? 2) && (dim 1 t =? dim 0 a)); [|reflexivity].
  simpl. f_equal. apply (tensordot_take_points _ _ K HK).
Qed.

Lemma evaluate_deriv_basis_take_rows
  (basis : list GeneralizedContractionShell) (c : ndarray) (orders : pyobj)
  (transform : option ndarray) (coord_type : option coord_type_arg) :
  shape c = [N; 3] ->
  evaluate_deriv_basis basis (PyArray (take_rows idx c)) orders transform
    coord_type
  = fmap (take_points idx)
      (evaluate_deriv_basis basis (PyArray c) orders transform coord_type).
Proof.
  intros Hsh. unfold evaluate_deriv_basis.
  destruct transform as [t|].
  - apply construct_array_lincomb_take_rows. exact Hsh.
  - apply construct_array_coord_type_take_rows. exact Hsh.
Qed.

End Reordering.

(** C8: with the rows of the points array reordered by a permutation, the
    result of construct_array_contraction and of evaluate_deriv_basis is
    the former result with its last axis, the points, reordered by the
    same permutation, and an error stays the same error. *)
Theorem C8_point_order_preserved
  {F : Type} {ops : FloatOps F} {pl : platform}
  {cart_to_sph : CartesianToSpherical (F := F)}
  (perm : list nat) (N : nat) (c : ndarray) :
  shape c = [N; 3] -> Permutation perm (seq 0 N) ->
  (forall contractions orders,
     construct_array_contraction contractions (PyArray (take_rows perm c))
       orders
     = fmap (take_points perm)
         (construct_array_contraction contractions (PyArray c) orders)) /\
  (forall basis orders transform coord_type,
     evaluate_deriv_basis basis (PyArray (take_rows perm c)) orders transform
       coord_type
     = fmap (take_points perm)
         (evaluate_deriv_basis basis (PyArray c) orders transform
            coord_type)).
Proof.
  intros Hsh Hperm.
  destruct (Permutation_seq_indices perm N Hperm) as [_ Hidx]. split.
  - intros contractions orders.
    apply (construct_array_contraction_take_rows perm N Hidx). exact Hsh.
  - intros basis orders transform coord_type.
    apply (evaluate_deriv_basis_take_rows perm N Hidx). exact Hsh.
Qed.

(** * The theorems on concrete shells, points and orders *)

Module Witnesses.

Import RationalOps.

#[local] Existing Instance Long64.

Ltac wf_scalar :=
  first [ reflexivity
        | split; [reflexivity | first [discriminate | intros _; lia]] ].

Ltac wf_array :=
  split; [reflexivity | repeat (apply Forall_cons; [wf_scalar|]); apply Forall_nil].

Ltac valid_shell_by_computation :=
  unfold valid_shell;
  split; [split; [wf_array|reflexivity]|];
  split; [split; [wf_array|reflexivity]|];
  split; [split; [wf_array|reflexivity]|];
  split; [split; [wf_array|split; reflexivity]|];
  split; [wf_array|reflexivity].

Lemma s_shell_valid : valid_shell s_shell 1 1 1.
Proof. valid_shell_by_computation. Qed.

Lemma p_shell_valid : valid_shell p_shell 2 2 3.
Proof. valid_shell_by_computation. Qed.

Lemma origin_valid : valid_coords origin 1.
Proof. split; [wf_array|reflexivity]. Qed.

Lemma two_points_valid : valid_coords two_points 2.
Proof. split; [wf_array|reflexivity]. Qed.

Lemma orders_102_valid : valid_orders (orders_of Int64 1 0 2).
Proof.
  split; [wf_array|]. split; [reflexivity|]. split; [reflexivity|].
  repeat (apply Forall_cons; [simpl; lia|]). apply Forall_nil.
Qed.

(** The s-shell of one primitive at its center, no differentiation: the
    normalization constant, the exponential being 1. *)
Example s_shell_at_origin :
  construct_array_contraction (PyShell s_shell) (PyArray origin)
    (PyArray (orders_of Int64 0 0 0))
  = Return (floats [1; 1; 1] [7127 # 10000]%Q).
Proof. vm_compute. reflexivity. Qed.

(** One derivative of [x * exp(-alpha x^2)]: the power lowered, scaled by
    one, plus the power raised, scaled by -2 alpha. *)
Example gauss_deriv_1d_first (F : Type) (ops : FloatOps F) (alpha x : F) :
  gauss_deriv_1d 1 1 alpha x
  = fadd (fmul (fofZ 1) (gauss_monomial 0 alpha x))
         (fmul (fmul (fofZ (-2)) alpha) (gauss_monomial 2 alpha x)).
Proof. reflexivity. Qed.

(** The second derivative of [exp(-alpha x^2)] is
    [(-2 alpha + 4 alpha^2 x^2) exp(-alpha x^2)]; here alpha = 3, x = 1/2. *)
Example gauss_deriv_1d_second :
  Qeq_bool (gauss_deriv_1d 2 0 3%Q (1 # 2)%Q)
           ((-2 * 3 + 4 * 3 * 3 * (1 # 2) * (1 # 2))
            * gauss_monomial 0 3 (1 # 2))%Q = true.
Proof. vm_compute. reflexivity. Qed.

(** The first derivative of [x^2 exp(-alpha x^2)] is
    [(2 x - 2 alpha x^3) exp(-alpha x^2)]; here alpha = 2, x = 3/4. *)
Example gauss_deriv_1d_square :
  Qeq_bool (gauss_deriv_1d 1 2 2%Q (3 # 4)%Q)
           ((2 * (3 # 4) - 2 * 2 * (3 # 4) * (3 # 4) * (3 # 4))
            * gauss_monomial 0 2 (3 # 4))%Q = true.
Proof. vm_compute. reflexivity. Qed.

(** Seven functions at two points: the s-shell, then the p-shell. *)
Example basis_shape_cartesian :
  fmap shape
    (evaluate_deriv_basis [s_shell; p_shell] (PyArray two_points)
       (PyArray (orders_of Int64 0 1 0)) None (Some (CoordStr "cartesian")))
  = Return [7; 2].
Proof. vm_compute. reflexivity. Qed.

Example mix_needs_one_entry_per_shell :
  evaluate_deriv_basis [s_shell; p_shell] (PyArray two_points)
    (PyArray (orders_of Int64 0 1 0)) None
    (Some (CoordSeq ["cartesian"%string]))
  = Raise TypeError.
Proof. reflexivity. Qed.

Example take_rows_swaps :
  take_rows [1; 0] two_points = floats [2; 3] [1; 1 # 2; 0; 0; 0; 0]%Q.
Proof. reflexivity. Qed.

Example take_points_swaps :
  take_points [1; 0] (floats [2; 2] [1; 2; 3; 4]%Q)
  = floats [2; 2] [2; 1; 4; 3]%Q.
Proof. reflexivity. Qed.

Example rejects_two_columns :
  construct_array_contraction (PyShell s_shell)
    (PyArray (floats [1; 2] [0; 0]%Q)) (PyArray (orders_of Int64 0 0 0))
  = Raise TypeError.
Proof. reflexivity. Qed.

Lemma C1_witness :
  exists a,
    construct_array_contraction (PyShell p_shell) (PyArray two_points)
      (PyArray (orders_of Int64 1 0 2)) = Return a /\
    shape a = [2; 3; 2] /\ wf_ndarray a /\ length (data a) = 2 * 3 * 2.
Proof.
  exact (C1_output_shape p_shell 2 2 3 two_points (orders_of Int64 1 0 2) 2
           p_shell_valid two_points_valid orders_102_valid).
Defined.

Lemma C2_witness :
  evaluate_deriv_basis [s_shell; p_shell] (PyArray two_points)
    (PyArray (orders_of Int64 0 0 0)) None
    (Some (CoordSeq ["cartesian"; "spherical"]%string))
  = construct_array_mix [s_shell; p_shell]
      (CoordSeq ["cartesian"; "spherical"]%string) (PyArray two_points)
      (PyArray (orders_of Int64 0 0 0)).
Proof.
  apply (proj2 (proj2 (proj2 (C2_dispatch_precedence [s_shell; p_shell]
           (PyArray two_points) (PyArray (orders_of Int64 0 0 0))
           (CoordSeq ["cartesian"; "spherical"]%string)))));
    discriminate.
Defined.


Lemma C4_witness :
  construct_array_contraction (PyShell s_shell) (PyArray origin)
    (PyArray (orders_of Int64 (-1) 0 0)) = Raise ValueError /\
  construct_array_contraction (PyShell s_shell) (PyArray origin)
    (PyArray (orders_of Int64 (-1) 0 0)) <> Raise TypeError.
Proof.
  apply (C4_negative_order_raises_ValueError s_shell origin
           (orders_of Int64 (-1) 0 0)); try reflexivity.
  apply Exists_cons_hd. reflexivity.
Defined.

Lemma C5_witness :
  construct_array_contraction (PyShell s_shell) (PyArray origin)
    (PyArray (floats [3] [0; 0; 0]%Q)) = Raise ValueError.
Proof.
  apply (C5_float_orders_raise_ValueError s_shell origin
           (floats [3] [0; 0; 0]%Q)); reflexivity.
Defined.



Lemma C7_witness :
  (exists a arrays,
     evaluate_deriv_basis [s_shell; p_shell] (PyArray two_points)
       (PyArray (orders_of Int64 1 0 2)) None (Some (CoordStr "cartesian"))
     = Return a /\
     shape a = [7; 2] /\
     Forall2 (fun sh a_sh =>
                construct_array_contraction (PyShell sh) (PyArray two_points)
                  (PyArray (orders_of Int64 1 0 2)) = Return a_sh)
       [s_shell; p_shell] arrays /\
     data a = concat (map data arrays)) /\
  (forall t K_orbs,
     shape t = [K_orbs; 7] ->
     exists b,
       evaluate_deriv_basis [s_shell; p_shell] (PyArray two_points)
         (PyArray (orders_of Int64 1 0 2)) (Some t)
         (Some (CoordStr "cartesian")) = Return b /\
       shape b = [K_orbs; 2]).
Proof.
  exact (C7_concatenation_shape [s_shell; p_shell] two_points
           (orders_of Int64 1 0 2) 2 two_points_valid orders_102_valid).
Defined.

Lemma C8_witness :
  (forall contractions orders,
     construct_array_contraction contractions
       (PyArray (take_rows [1; 0] two_points)) orders
     = fmap (take_points [1; 0])
         (construct_array_contraction contractions (PyArray two_points)
            orders)) /\
  (forall basis orders transform coord_type,
     evaluate_deriv_basis basis (PyArray (take_rows [1; 0] two_points)) orders
       transform coord_type
     = fmap (take_points [1; 0])
         (evaluate_deriv_basis basis (PyArray two_points) orders transform
            coord_type)).
Proof.
  apply (C8_point_order_preserved [1; 0] 2 two_points);
    [reflexivity|apply perm_swap].
Defined.

Lemma C10_witness :
  construct_array_contraction (PyShell s_shell) (PyArray origin)
    (PyArray (orders_of Int32 0 1 2)) = Raise ValueError /\
  construct_array_contraction (PyShell s_shell) (PyArray origin)
    (PyArray (orders_of UInt64 0 1 2)) = Raise ValueError.
Proof.
  split.
  - apply (proj2 (C10_only_default_int_dtype_accepted s_shell origin
                    (orders_of Int32 0 1 2) eq_refl eq_refl eq_refl));
      [reflexivity|discriminate|reflexivity].
  - apply (proj2 (C10_only_default_int_dtype_accepted s_shell origin
                    (orders_of UInt64 0 1 2) eq_refl eq_refl eq_refl));
      [reflexivity|discriminate|reflexivity].
Defined.

End Witnesses.

(** * The outcome of a call of the shell array constructor *)

Section Outcomes.

Context {F : Type} {ops : FloatOps F} {pl : platform}.

Lemma isinstance_shell_true (x : pyobj (F := F)) :
  isinstance_shell x = true <-> is_shell x.
Proof.
  split.
  - destruct x; try discriminate. intros _. eexists. reflexivity.
  - intros [sh ->]. reflexivity.
Qed.

Lemma coords_check_true (x : pyobj (F := F)) :
  coords_check x = true <-> is_points_array x.
Proof.
  split.
  - destruct x as [| |?|?|c]; try discriminate. simpl. intros H.
    apply andb_prop in H. destruct H as [H1 H2].
    apply Nat.eqb_eq in H1, H2. exists c. repeat split; assumption.
  - intros [c [-> [H1 H2]]]. simpl. unfold dim in H2.
    rewrite H1, H2. reflexivity.
Qed.

Lemma orders_check_Some (x : pyobj (F := F)) (o : ndarray) :
  orders_check x = Some o <-> x = PyArray o /\ shape o = [3].
Proof.
  split.
  - destruct x as [| |?|?|o']; try discriminate. simpl.
    destruct (list_nat_eqb (shape o') [3]) eqn:E; [|discriminate].
    intros H. injection H as ->. apply list_nat_eqb_eq in E. split; auto.
  - intros [-> H]. simpl. rewrite H. reflexivity.
Qed.

Lemma orders_check_None (x : pyobj (F := F)) :
  orders_check x = None <-> ~ is_orders_array x.
Proof.
  split.
  - intros H [o [Hx Hs]].
    rewrite (proj2 (orders_check_Some x o) (conj Hx Hs)) in H. discriminate.
  - intros H. destruct (orders_check x) as [o|] eqn:E; [|reflexivity].
    exfalso. apply H. exists o. apply orders_check_Some. exact E.
Qed.

(** The call in terms of the three checks *)
Lemma construct_array_contraction_checks (contractions coords orders : pyobj) :
  construct_array_contraction contractions coords orders =
  if negb (isinstance_shell contractions) then Raise TypeError
  else if negb (coords_check coords) then Raise TypeError
  else match orders_check orders with
       | None => Raise TypeError
       | Some o =>
           if any_lt0 o then Raise ValueError
           else if negb (dtype_eqb (dtype o) (np_int pl)) then Raise ValueError
           else
             match contractions, coords with
             | PyShell sh, PyArray c => Return (shell_values sh c o)
             | _, _ => Raise TypeError
             end
       end.
Proof.
  unfold construct_array_contraction.
  destruct contractions as [| |?|sh|?]; try reflexivity. simpl.
  destruct coords as [| |?|?|c]; try reflexivity. simpl.
  destruct ((ndim c =? 2) && (nth 1 (shape c) 0 =? 3)); [|reflexivity].
  simpl. destruct orders as [| |?|?|o]; try reflexivity. simpl.
  destruct (list_nat_eqb (shape o) [3]); reflexivity.
Qed.

(** A returned array has passed every check and is the evaluator's. *)
Lemma construct_array_contraction_Return_inv
  (contractions coords orders : pyobj) (a : ndarray) :
  construct_array_contraction contractions coords orders = Return a ->
  exists sh c o,
    contractions = PyShell sh /\
    (coords = PyArray c /\ ndim c = 2 /\ dim 1 c = 3) /\
    (orders = PyArray o /\ shape o = [3]) /\
    any_lt0 o = false /\ dtype o = np_int pl /\
    a = _eval_deriv_contractions c o (coord sh) (angmom_components_cart sh)
          (exps sh) (coeffs sh) (norm_prim_cart sh).
Proof.
  rewrite construct_array_contraction_checks.
  destruct (isinstance_shell contractions) eqn:E1; [|discriminate].
  destruct (coords_check coords) eqn:E2; [|discriminate].
  destruct (orders_check orders) as [o|] eqn:E3; [|discriminate].
  simpl. destruct (any_lt0 o) eqn:E4; [discriminate|].
  destruct (dtype_eqb (dtype o) (np_int pl)) eqn:E5; [|discriminate].
  simpl. apply isinstance_shell_true in E1. destruct E1 as [sh ->].
  apply coords_check_true in E2. destruct E2 as [c [-> Hc]].
  apply orders_check_Some in E3. apply dtype_eqb_eq in E5.
  intros H. injection H as <-.
  exists sh, c, o. repeat split; solve [tauto | reflexivity].
Qed.


(** X2: where orders, when an array, has a real-number dtype (boolean,
    integer or floating point), the call raises ValueError exactly when the
    three type checks pass and orders has a negative element or a dtype
    other than [np.dtype(int)]. *)
Theorem X2_ValueError_iff (contractions coords orders : pyobj) :
  real_orders orders ->
  (construct_array_contraction contractions coords orders = Raise ValueError
   <->
   type_checks contractions coords orders /\
   exists o, orders = PyArray o /\
             (any_lt0 o = true \/ dtype o <> np_int pl)).
Proof.
  intros _. rewrite construct_array_contraction_checks. split.
  - destruct (isinstance_shell contractions) eqn:E1; [|discriminate].
    destruct (coords_check coords) eqn:E2; [|discriminate].
    destruct (orders_check orders) as [o|] eqn:E3; [|discriminate].
    simpl. apply isinstance_shell_true in E1. apply coords_check_true in E2.
    apply orders_check_Some in E3. destruct E3 as [Ho Hs].
    assert (Ht : type_checks contractions coords orders).
    { split; [exact E1|]. split; [exact E2|]. exists o. split; assumption. }
    destruct (any_lt0 o) eqn:E4.
    + intros _. split; [exact Ht|]. exists o. split; [exact Ho|left; exact E4].
    + destruct (dtype_eqb (dtype o) (np_int pl)) eqn:E5; simpl.
      * destruct E1 as [sh ->]. destruct E2 as [c [-> _]]. discriminate.
      * intros _. split; [exact Ht|]. exists o. split; [exact Ho|right].
        intros E. apply dtype_eqb_eq in E. congruence.
  - intros [[[sh ->] [[c [-> [H1 H2]]] [o' [-> H3]]]] [o [Ho Hv]]].
    injection Ho as <-. simpl. unfold dim in H2. rewrite H1, H2, H3. simpl.
    destruct (any_lt0 o'); [reflexivity|].
    destruct Hv as [Hv|Hv]; [discriminate|].
    destruct (dtype_eqb (dtype o') (np_int pl)) eqn:E5; [|reflexivity].
    apply dtype_eqb_eq in E5. contradiction.
Qed.


Lemma isinstance_shell_false (x : pyobj (F := F)) :
  isinstance_shell x = false <-> ~ is_shell x.
Proof.
  rewrite <- isinstance_shell_true.
  destruct (isinstance_shell x); split; congruence.
Qed.

Lemma coords_check_false (x : pyobj (F := F)) :
  coords_check x = false <-> ~ is_points_array x.
Proof.
  rewrite <- coords_check_true.
  destruct (coords_check x); split; congruence.
Qed.

Lemma msg_distinct :
  msg_contractions <> msg_coords /\ msg_contractions <> msg_orders /\
  msg_coords <> msg_orders /\ msg_negative <> msg_dtype.
Proof.
  repeat split; intros H; apply String.eqb_eq in H; vm_compute in H;
    discriminate H.
Qed.

Lemma unsigned_not_floating (d : np_dtype) :
  is_unsigned d = true -> is_floating d = false /\ is_integral d = true.
Proof. destruct d; simpl; intros H; try discriminate H; split; reflexivity. Qed.

(** In a well-formed array of an unsigned or boolean dtype no element is
    negative. *)
Lemma unsigned_or_bool_no_negative (o : ndarray (F := F)) :
  wf_ndarray o -> is_unsigned (dtype o) = true \/ dtype o = Bool8 ->
  any_lt0 o = false.
Proof.
  intros [_ Hty] Hd. unfold any_lt0.
  induction (data o) as [|s l IH]; [reflexivity|].
  inversion Hty as [|? ? Hs Hl]; subst. simpl.
  rewrite (IH Hl), orb_false_r.
  destruct s as [b|z|x]; simpl in *.
  - reflexivity.
  - destruct Hs as [Hi Hz]. destruct Hd as [Hu|Hb].
    + apply Z.ltb_ge. apply Hz. exact Hu.
    + rewrite Hb in Hi. discriminate Hi.
  - destruct Hd as [Hu|Hb].
    + apply unsigned_not_floating in Hu. destruct Hu as [Hu _].
      rewrite Hu in Hs. discriminate Hs.
    + rewrite Hb in Hs. discriminate Hs.
Qed.

Lemma unsigned_or_bool_not_np_int (d : np_dtype) :
  is_unsigned d = true \/ d = Bool8 -> d <> np_int pl.
Proof.
  intros [H|H] E; rewrite E in H; destruct pl; discriminate H.
Qed.

(** X7: a well-formed orders of shape (3,) of an unsigned-integer or
    boolean dtype is never reported as negative: with a shell and a 2-D
    coords with 3 columns the call raises ValueError with the message that
    the orders must be given as integers. *)
Theorem X7_unsigned_or_bool_orders_rejected
  (sh : GeneralizedContractionShell) (c o : ndarray) :
  ndim c = 2 -> dim 1 c = 3 -> shape o = [3] -> wf_ndarray o ->
  is_unsigned (dtype o) = true \/ dtype o = Bool8 ->
  validation_error (PyShell sh) (PyArray c) (PyArray o)
  = Some (ValueError, msg_dtype) /\
  construct_array_contraction (PyShell sh) (PyArray c) (PyArray o)
  = Raise ValueError.
Proof.
  intros Hn Hc Hs Hwf Hd.
  assert (Hneg := unsigned_or_bool_no_negative o Hwf Hd).
  assert (Hdt := unsigned_or_bool_not_np_int _ Hd).
  split.
  - unfold validation_error. simpl. unfold dim in Hc.
    rewrite Hn, Hc, Hs. simpl. rewrite Hneg.
    destruct (dtype_eqb (dtype o) (np_int pl)) eqn:E; [|reflexivity].
    apply dtype_eqb_eq in E. contradiction.
  - apply dtype_mismatch_raises; assumption.
Qed.

Ltac use_hypotheses :=
  repeat match goal with
         | H : _ /\ _ |- _ => destruct H
         | H : exists _, _ |- _ => destruct H
         | H : ?x = PyArray ?a, H' : ?x = PyArray ?b |- _ =>
             rewrite H in H'; injection H' as H'; subst b
         end.

Ltac other_message H :=
  exfalso; injection H as H; revert H;
  first [ apply (proj1 msg_distinct)
        | apply (proj1 (proj2 msg_distinct))
        | apply (proj1 (proj2 (proj2 msg_distinct)))
        | apply (proj2 (proj2 (proj2 msg_distinct)))
        | apply not_eq_sym; apply (proj1 msg_distinct)
        | apply not_eq_sym; apply (proj1 (proj2 msg_distinct))
        | apply not_eq_sym; apply (proj1 (proj2 (proj2 msg_distinct)))
        | apply not_eq_sym; apply (proj2 (proj2 (proj2 msg_distinct))) ].

Ltac decide_message :=
  let H := fresh "H" in
  split; intros H;
  first [ discriminate H
        | other_message H
        | reflexivity
        | solve [ repeat first [ eassumption | split | eexists ] ]
        | exfalso; use_hypotheses;
          solve [ tauto
                | congruence
                | match goal with
                  | E : ~ is_orders_array _ |- _ =>
                      apply E; eexists; split; eassumption
                  end ] ].

(** X6: the message of the error names the first check that fails, in the
    order contractions, coords, shape of orders, negative element, dtype:
    a later violation does not change it. *)
Theorem X6_message_of_first_failing_check
  (contractions coords orders : pyobj) :
  (validation_error contractions coords orders
   = Some (TypeError, msg_contractions)
   <-> ~ is_shell contractions) /\
  (validation_error contractions coords orders = Some (TypeError, msg_coords)
   <-> is_shell contractions /\ ~ is_points_array coords) /\
  (validation_error contractions coords orders = Some (TypeError, msg_orders)
   <-> is_shell contractions /\ is_points_array coords /\
       ~ is_orders_array orders) /\
  (validation_error contractions coords orders
   = Some (ValueError, msg_negative)
   <-> is_shell contractions /\ is_points_array coords /\
       exists o, orders = PyArray o /\ shape o = [3] /\ any_lt0 o = true) /\
  (validation_error contractions coords orders = Some (ValueError, msg_dtype)
   <-> is_shell contractions /\ is_points_array coords /\
       exists o, orders = PyArray o /\ shape o = [3] /\ any_lt0 o = false /\
                 dtype o <> np_int pl).
Proof.
  unfold validation_error.
  destruct (isinstance_shell contractions) eqn:E1;
    [apply isinstance_shell_true in E1|apply isinstance_shell_false in E1];
    simpl.
  2: { split; [|split; [|split; [|split]]]; decide_message. }
  destruct (coords_check coords) eqn:E2;
    [apply coords_check_true in E2|apply coords_check_false in E2]; simpl.
  2: { split; [|split; [|split; [|split]]]; decide_message. }
  destruct (orders_check orders) as [o|] eqn:E3;
    [apply orders_check_Some in E3; destruct E3 as [Ho Hs]
    |apply orders_check_None in E3].
  2: { split; [|split; [|split; [|split]]]; decide_message. }
  assert (E3 : is_orders_array orders) by (exists o; split; assumption).
  destruct (any_lt0 o) eqn:E4.
  { split; [|split; [|split; [|split]]]; decide_message. }
  destruct (dtype_eqb (dtype o) (np_int pl)) eqn:E5; simpl.
  - apply dtype_eqb_eq in E5.
    split; [|split; [|split; [|split]]]; decide_message.
  - assert (E5' : dtype o <> np_int pl)
      by (intros E; apply dtype_eqb_eq in E; congruence).
    split; [|split; [|split; [|split]]]; decide_message.
Qed.

End Outcomes.

(** X4: no call is accepted both where [np.dtype(int)] is int32 and where
    it is int64: a call that returns an array on one platform raises
    ValueError on the other. *)
Theorem X4_acceptance_depends_on_platform
  {F : Type} {ops : FloatOps F} (contractions coords orders : pyobj) :
  (forall a,
     construct_array_contraction (pl := Long32) contractions coords orders
     = Return a ->
     construct_array_contraction (pl := Long64) contractions coords orders
     = Raise ValueError) /\
  (forall a,
     construct_array_contraction (pl := Long64) contractions coords orders
     = Return a ->
     construct_array_contraction (pl := Long32) contractions coords orders
     = Raise ValueError).
Proof.
  split; intros a H;
    apply construct_array_contraction_Return_inv in H;
    destruct H as [sh [c [o [-> [[-> [H1 H2]] [[-> H3] [_ [H5 _]]]]]]]];
    apply dtype_mismatch_raises; try assumption;
    rewrite H5; discriminate.
Qed.

(** * The outcomes on concrete calls *)

Module OutcomeWitnesses.

Import RationalOps Witnesses.


Lemma X2_witness :
  construct_array_contraction (pl := Long64) (PyShell s_shell)
    (PyArray origin) (PyArray (orders_of Int64 0 (-2) 0))
  = Raise ValueError.
Proof.
  assert (Hreal : real_orders (PyArray (orders_of Int64 0 (-2) 0))).
  { intros o Ho. injection Ho as <-. reflexivity. }
  apply (proj2 (X2_ValueError_iff (pl := Long64) (PyShell s_shell)
                  (PyArray origin) (PyArray (orders_of Int64 0 (-2) 0))
                  Hreal)).
  split.
  - split; [exists s_shell; reflexivity|].
    split; [exists origin; repeat split|].
    exists (orders_of Int64 0 (-2) 0). split; reflexivity.
  - exists (orders_of Int64 0 (-2) 0). split; [reflexivity|left; reflexivity].
Defined.


Lemma X4_witness :
  construct_array_contraction (pl := Long32) (PyShell s_shell)
    (PyArray origin) (PyArray (orders_of Int64 0 0 0))
  = Raise ValueError.
Proof.
  eapply (proj2 (X4_acceptance_depends_on_platform (PyShell s_shell)
                   (PyArray origin) (PyArray (orders_of Int64 0 0 0)))).
  reflexivity.
Defined.

(** Float orders with a negative element and no shell at all: the message
    is the first check's. *)
Lemma X6_witness :
  validation_error (pl := Long64) PyNone (PyArray origin)
    (PyArray (floats [3] [-1; 0; 0]%Q))
  = Some (TypeError, msg_contractions) /\
  validation_error (pl := Long64) (PyShell s_shell) (PyArray origin)
    (PyArray (floats [3] [-1; 0; 0]%Q))
  = Some (ValueError, msg_negative).
Proof.
  split.
  - apply (proj1 (X6_message_of_first_failing_check (pl := Long64) PyNone
                    (PyArray origin) (PyArray (floats [3] [-1; 0; 0]%Q)))).
    intros [sh H]. discriminate H.
  - apply (proj1 (proj2 (proj2 (proj2
             (X6_message_of_first_failing_check (pl := Long64)
                (PyShell s_shell) (PyArray origin)
                (PyArray (floats [3] [-1; 0; 0]%Q))))))).
    split; [exists s_shell; reflexivity|].
    split; [exists origin; repeat split|].
    exists (floats [3] [-1; 0; 0]%Q). repeat split.
Defined.

Lemma X7_witness :
  validation_error (pl := Long64) (PyShell s_shell) (PyArray origin)
    (PyArray (orders_of UInt64 0 1 2))
  = Some (ValueError, msg_dtype) /\
  construct_array_contraction (pl := Long64) (PyShell s_shell)
    (PyArray origin) (PyArray (orders_of UInt64 0 1 2))
  = Raise ValueError.
Proof.
  apply (X7_unsigned_or_bool_orders_rejected (pl := Long64) s_shell origin
           (orders_of UInt64 0 1 2)); try reflexivity.
  - wf_array.
  - left. reflexivity.
Defined.

End OutcomeWitnesses.
